(** * Ontime project controller: a shallow embedding of the route handlers

    The module under verification is the Express controller of the project
    files of the Ontime server (patch, create, download, upload, list, load,
    duplicate, rename, delete, info).  The handlers are translated statement
    by statement into a small state-and-exception monad; the services they
    import (project service, application state service, filename utilities,
    the Node [fs] and [path] functions and the two directory constants) are
    the fields of an environment record the handlers are parametric in. *)

From Stdlib Require Import Ascii String.
From stdpp Require Import base gmap strings list pretty.

Open Scope string_scope.

Set Warnings "-register-all".

(** ** JavaScript values

    [req.body] is untyped, so the fields read from it are arbitrary parsed
    JSON values, plus [undefined] for an absent key. *)

Inductive JSVal : Type :=
| JUndefined
| JNull
| JBool (b : bool)
| JNum (n : Z)
| JStr (s : string)
| JArr (xs : list JSVal)
| JObj (fields : list (string * JSVal)).

(** Truthiness, as used by [a || b], [c ? x : y] and [!a]. *)
Definition truthy (v : JSVal) : bool :=
  match v with
  | JUndefined | JNull => false
  | JBool b => b
  | JNum n => negb (n =? 0)%Z
  | JStr s => negb (String.eqb s "")
  | JArr _ | JObj _ => true
  end.

(** [a || b] *)
Definition js_or (a b : JSVal) : JSVal := if truthy a then a else b.

(** [a ?? b] *)
Definition js_nullish (a b : JSVal) : JSVal :=
  match a with
  | JUndefined | JNull => b
  | _ => a
  end.

(** String conversion, as performed by a template literal, for the values
    of this type: numbers are integers and print in decimal (as JavaScript
    prints them below 10^21), and an object prints as [[object Object]] (in
    JavaScript an own [toString] key would be called instead, or make the
    conversion throw).  Statements about messages are made for strings. *)
Fixpoint jsToString (v : JSVal) : string :=
  match v with
  | JUndefined => "undefined"
  | JNull => "null"
  | JBool true => "true"
  | JBool false => "false"
  | JNum n => pretty n
  | JStr s => s
  | JArr xs =>
      String.concat ","
        (map (fun x => match x with
                       | JUndefined | JNull => ""
                       | _ => jsToString x
                       end) xs)
  | JObj _ => "[object Object]"
  end.

(** Property access on a parsed body: an absent key reads as [undefined]. *)
Definition field (o : gmap string JSVal) (k : string) : JSVal :=
  default JUndefined (o !! k).

(** ** Requests and responses *)

Record UploadedFile : Type := mkUploadedFile {
  file_filename : string;
  file_path : string
}.

Record Request : Type := mkRequest {
  params_filename : string;          (* req.params.filename *)
  body : gmap string JSVal;          (* req.body *)
  query : JSVal;                     (* req.query *)
  file : option UploadedFile         (* req.file *)
}.

(** [DatabaseModel]: eight top-level fields, each independently optional. *)
Record DatabaseModel : Type := mkDatabaseModel {
  rundown : JSVal;
  project : JSVal;
  settings : JSVal;
  viewSettings : JSVal;
  urlPresets : JSVal;
  customFields : JSVal;
  osc : JSVal;
  http : JSVal
}.

Record ProjectData : Type := mkProjectData {
  title : JSVal;
  description : JSVal;
  publicUrl : JSVal;
  publicInfo : JSVal;
  backstageUrl : JSVal;
  backstageInfo : JSVal
}.

(** Argument of [validateProjectFiles]; an omitted key is [JUndefined]. *)
Record ProjectFiles : Type := mkProjectFiles {
  pf_filename : JSVal;
  pf_newFilename : JSVal
}.

Record AppState : Type := mkAppState {
  lastLoadedProject : option string
}.

Inductive Payload : Type :=
| Message (message : string)               (* { message } *)
| FilenameBody (filename : string)         (* { filename } *)
| ModelBody (data : DatabaseModel)
| DataBody (data : JSVal)                  (* project list, info *)
| FileBody (pathToFile name : string).     (* res.download *)

Record Response : Type := mkResponse {
  status : nat;
  payload : Payload
}.

(** ** Results of service calls: a value, or a thrown error.

    An error is represented by its message, which is what
    [getErrorMessage] extracts from it. *)

Inductive result (A : Type) : Type :=
| Ok (a : A)
| Throw (error : string).
Arguments Ok {A} a.
Arguments Throw {A} error.

Definition getErrorMessage (error : string) : string := error.

(** ** The services the controller imports *)

Inductive ServiceCall : Type :=
| CApplyDataModel (patchDb : DatabaseModel)
| CEnsureJsonExtension (name : JSVal)
| CGenerateUniqueFileName (directory filename : string)
| CValidateProjectFiles (files : ProjectFiles)
| CCreateProjectFile (filename : string) (data : ProjectData)
| CGetProjectTitle
| CExistsSync (path : string)
| CDownload (path name : string)
| CHandleUploadedFile (path filename : string)
| CApplyProjectFile (name options : JSVal)
| CGetProjectList
| CDoesProjectExist (name : JSVal)
| CDuplicateProjectFile (filename : string) (newFilename : JSVal)
| CRenameProjectFile (filename : string) (newFilename : JSVal)
| CAppStateGet
| CDeleteProjectFile (filename : string)
| CGetInfo.

(** [W] is the state behind the services: the file system, the application
    state and the active in-memory project.  Queries read it, commands may
    change it, and either may throw. *)
Record Env (W : Type) : Type := mkEnv {
  resolveDbDirectory : string;
  resolveProjectsDirectory : string;
  join : string -> string -> string;
  existsSync : string -> W -> bool;
  download : string -> string -> W -> option string;
  ensureJsonExtension : JSVal -> result string;
  generateUniqueFileName : string -> string -> W -> result string;
  appStateGet : W -> result AppState;
  applyDataModel : DatabaseModel -> W -> result DatabaseModel * W;
  validateProjectFiles : ProjectFiles -> W -> result (list string);
  createProject : string -> ProjectData -> W -> result unit * W;
  getProjectTitle : W -> result string;
  handleUploadedFile : string -> string -> W -> result unit * W;
  applyProjectFile : JSVal -> JSVal -> W -> result unit * W;
  getProjectList : W -> result JSVal;
  doesProjectExist : JSVal -> W -> result bool;
  duplicateProject : string -> JSVal -> W -> result unit * W;
  renameProject : string -> JSVal -> W -> result unit * W;
  deleteProject : string -> W -> result unit * W;
  getProjectInfo : W -> result JSVal
}.
Arguments resolveDbDirectory {W} _.
Arguments resolveProjectsDirectory {W} _.
Arguments join {W} _ _ _.
Arguments existsSync {W} _ _ _.
Arguments download {W} _ _ _ _.
Arguments ensureJsonExtension {W} _ _.
Arguments generateUniqueFileName {W} _ _ _ _.
Arguments appStateGet {W} _ _.
Arguments applyDataModel {W} _ _ _.
Arguments validateProjectFiles {W} _ _ _.
Arguments createProject {W} _ _ _ _.
Arguments getProjectTitle {W} _ _.
Arguments handleUploadedFile {W} _ _ _ _.
Arguments applyProjectFile {W} _ _ _ _.
Arguments getProjectList {W} _ _.
Arguments doesProjectExist {W} _ _ _.
Arguments duplicateProject {W} _ _ _ _.
Arguments renameProject {W} _ _ _ _.
Arguments deleteProject {W} _ _ _.
Arguments getProjectInfo {W} _ _.

(** ** The handler monad

    A handler run threads the service state, the trace of service calls
    (with the errors they raised) and the responses sent on [res]; it ends
    normally or with an error that escaped the handler. *)

Inductive Event : Type :=
| Call (c : ServiceCall)
| Raise (error : string).

Record HState (W : Type) : Type := mkHState {
  world : W;
  log : list Event;
  sent : list Response
}.
Arguments mkHState {W} _ _ _.
Arguments world {W} _.
Arguments log {W} _.
Arguments sent {W} _.

Definition M (W A : Type) : Type := HState W -> result A * HState W.

Definition ret {W A} (a : A) : M W A := fun st => (Ok a, st).

Definition bind {W A B} (m : M W A) (k : A -> M W B) : M W B :=
  fun st =>
    match m st with
    | (Ok a, st') => k a st'
    | (Throw e, st') => (Throw e, st')
    end.

Notation "x <- m ;; k" := (bind m (fun x => k))
  (at level 100, m at next level, right associativity).
Notation "m ;;; k" := (bind m (fun _ => k))
  (at level 100, right associativity).

(** [try { m } catch (error) { h error }] *)
Definition tryCatch {W A} (m : M W A) (h : string -> M W A) : M W A :=
  fun st =>
    match m st with
    | (Ok a, st') => (Ok a, st')
    | (Throw e, st') => h e st'
    end.

(** [res.status(code).send(body)] *)
Definition send {W} (code : nat) (b : Payload) : M W unit :=
  fun st => (Ok tt, mkHState (world st) (log st) (sent st ++ [mkResponse code b])).

(** A call of a command: logged, run on the service state. *)
Definition call {W A} (c : ServiceCall) (op : W -> result A * W) : M W A :=
  fun st =>
    match op (world st) with
    | (Ok a, w') => (Ok a, mkHState w' (log st ++ [Call c]) (sent st))
    | (Throw e, w') => (Throw e, mkHState w' (log st ++ [Call c; Raise e]) (sent st))
    end.

(** A call of a query: the service state is read, not written. *)
Definition ask {W A} (c : ServiceCall) (op : W -> result A) : M W A :=
  call c (fun w => (op w, w)).

(** ** Utilities of the router *)

(** Modelled from the spec: [failEmptyObjects] of utils/routerUtils is not
    part of the sources at hand; the handler contract "400 if body empty"
    makes it the test that the body has no field. *)
Definition failEmptyObjects (obj : gmap string JSVal) : bool :=
  bool_decide (obj = ∅).

(** ** The handlers

    One definition per exported function of the controller, in the order of
    the source.  A [return res.status(..).send(..)] inside a [try] is the
    first branch of a conditional whose other branch is the rest of the
    block.  The service functions the source calls without [await] are
    run like the awaited ones: they return or throw at the call.  For
    [validateProjectFiles], [doesProjectExist] and [getProjectTitle] the
    handler uses the value returned, so they are synchronous.  The result
    of [projectService.createProjectFile] is discarded, and the sources do
    not show whether it is a promise; what is stated about the create
    handler beyond the trace of its calls leaves the outcome of that call
    out, unless the service is the in-memory store. *)

Section Handlers.

Context {W : Type} (env : Env W).

Definition patchPartialProjectFile (req : Request) : M W unit :=
  if failEmptyObjects (body req) then
    send 400 (Message "No field found to patch")
  else
    tryCatch
      (let patchDb :=
         mkDatabaseModel
           (field (body req) "rundown") (field (body req) "project")
           (field (body req) "settings") (field (body req) "viewSettings")
           (field (body req) "urlPresets") (field (body req) "customFields")
           (field (body req) "osc") (field (body req) "http") in
       newData <- call (CApplyDataModel patchDb) (applyDataModel env patchDb) ;;
       send 200 (ModelBody newData))
      (fun error => send 400 (Message (getErrorMessage error))).

Definition createProjectFile (req : Request) : M W unit :=
  tryCatch
    (originalFilename <-
       ask (CEnsureJsonExtension (js_or (field (body req) "title") (JStr "Untitled")))
           (fun _ => ensureJsonExtension env
                       (js_or (field (body req) "title") (JStr "Untitled"))) ;;
     filename <-
       ask (CGenerateUniqueFileName (resolveProjectsDirectory env) originalFilename)
           (generateUniqueFileName env (resolveProjectsDirectory env) originalFilename) ;;
     errors <-
       ask (CValidateProjectFiles (mkProjectFiles JUndefined (JStr filename)))
           (validateProjectFiles env (mkProjectFiles JUndefined (JStr filename))) ;;
     if negb (Nat.eqb (List.length errors) 0) then
       send 409 (Message "Project with title already exists")
     else
       let newProjectData :=
         mkProjectData
           (js_nullish (field (body req) "title") (JStr ""))
           (js_nullish (field (body req) "description") (JStr ""))
           (js_nullish (field (body req) "publicUrl") (JStr ""))
           (js_nullish (field (body req) "publicInfo") (JStr ""))
           (js_nullish (field (body req) "backstageUrl") (JStr ""))
           (js_nullish (field (body req) "backstageInfo") (JStr "")) in
       call (CCreateProjectFile filename newProjectData)
            (createProject env filename newProjectData) ;;;
       send 200 (FilenameBody filename))
    (fun error => send 500 (Message (getErrorMessage error))).

Definition selectProjectFile (fileName : JSVal) : M W (string * string) :=
  let projectsDirectory := resolveDbDirectory env in
  fileToDownload <-
    (if truthy fileName
     then ask (CEnsureJsonExtension fileName) (fun _ => ensureJsonExtension env fileName)
     else ask CGetProjectTitle (getProjectTitle env)) ;;
  let pathToFile := join env projectsDirectory fileToDownload in
  ret (pathToFile, fileToDownload).

(** [res.download] either serves the file or hands an error to its
    callback.  The served file is recorded as a response; the handler sets
    no status for it, and 200, the default of the framework, stands in for
    it.  An error that arrives after the file response has started is not
    modelled. *)
Definition projectDownload (req : Request) : M W unit :=
  sel <- selectProjectFile (field (body req) "fileName") ;;
  let pathToFile := fst sel in
  let name := snd sel in
  found <- ask (CExistsSync pathToFile) (fun w => Ok (existsSync env pathToFile w)) ;;
  if negb found then
    send 404 (Message ("Project " +:+ name +:+ " not found."))
  else
    failure <- ask (CDownload pathToFile name)
                   (fun w => Ok (download env pathToFile name w)) ;;
    match failure with
    | Some error => send 500 (Message (getErrorMessage error))
    | None => send 200 (FileBody pathToFile name)
    end.

Definition postProjectFile (req : Request) : M W unit :=
  match file req with
  | None => send 400 (Message "File not found")
  | Some f =>
      tryCatch
        (let options := query req in
         let filename := file_filename f in
         let path := file_path f in
         call (CHandleUploadedFile path filename)
              (handleUploadedFile env path filename) ;;;
         call (CApplyProjectFile (JStr filename) options)
              (applyProjectFile env (JStr filename) options) ;;;
         send 201 (Message ("Loaded project " +:+ filename)))
        (fun error => send 400 (Message (getErrorMessage error)))
  end.

Definition listProjects (_req : Request) : M W unit :=
  tryCatch
    (data <- ask CGetProjectList (getProjectList env) ;;
     send 200 (DataBody data))
    (fun error => send 500 (Message (getErrorMessage error))).

Definition loadProject (req : Request) : M W unit :=
  tryCatch
    (let name := field (body req) "filename" in
     found <- ask (CDoesProjectExist name) (doesProjectExist env name) ;;
     if negb found then
       send 404 (Message "File not found")
     else
       call (CApplyProjectFile name JUndefined)
            (applyProjectFile env name JUndefined) ;;;
       send 201 (Message ("Loaded project " +:+ jsToString name)))
    (fun error => send 500 (Message (getErrorMessage error))).

Definition duplicateProjectFile (req : Request) : M W unit :=
  tryCatch
    (let filename := params_filename req in
     let newFilename := field (body req) "newFilename" in
     errors <-
       ask (CValidateProjectFiles (mkProjectFiles (JStr filename) newFilename))
           (validateProjectFiles env (mkProjectFiles (JStr filename) newFilename)) ;;
     if negb (Nat.eqb (List.length errors) 0) then
       send 409 (Message (String.concat ", " errors))
     else
       call (CDuplicateProjectFile filename newFilename)
            (duplicateProject env filename newFilename) ;;;
       send 201 (Message ("Duplicated project " +:+ filename +:+ " to "
                            +:+ jsToString newFilename)))
    (fun error => send 500 (Message (getErrorMessage error))).

Definition renameProjectFile (req : Request) : M W unit :=
  tryCatch
    (let newFilename := field (body req) "newFilename" in
     let filename := params_filename req in
     errors <-
       ask (CValidateProjectFiles (mkProjectFiles (JStr filename) newFilename))
           (validateProjectFiles env (mkProjectFiles (JStr filename) newFilename)) ;;
     if negb (Nat.eqb (List.length errors) 0) then
       send 409 (Message (String.concat ", " errors))
     else
       call (CRenameProjectFile filename newFilename)
            (renameProject env filename newFilename) ;;;
       send 201 (Message ("Renamed project " +:+ filename +:+ " to "
                            +:+ jsToString newFilename)))
    (fun error => send 500 (Message (getErrorMessage error))).

Definition deleteProjectFile (req : Request) : M W unit :=
  tryCatch
    (let filename := params_filename req in
     state <- ask CAppStateGet (appStateGet env) ;;
     if bool_decide (lastLoadedProject state = Some filename) then
       send 403 (Message "Cannot delete currently loaded project")
     else
       errors <-
         ask (CValidateProjectFiles (mkProjectFiles (JStr filename) JUndefined))
             (validateProjectFiles env (mkProjectFiles (JStr filename) JUndefined)) ;;
       if negb (Nat.eqb (List.length errors) 0) then
         send 409 (Message (String.concat ", " errors))
       else
         call (CDeleteProjectFile filename) (deleteProject env filename) ;;;
         send 204 (Message ("Deleted project " +:+ filename)))
    (fun error => send 500 (Message (getErrorMessage error))).

Definition getInfo (_req : Request) : M W unit :=
  info <- ask CGetInfo (getProjectInfo env) ;;
  send 200 (DataBody info).

End Handlers.

(** ** Filename policy *)

Definition jsonExtension : string := ".json".

(** [s.endsWith(suffix)]: some tail of [s] is [suffix]. *)
Fixpoint endsWith (s suffix : string) : bool :=
  String.eqb s suffix ||
  match s with
  | EmptyString => false
  | String _ s' => endsWith s' suffix
  end.

(** Modelled from the spec: [ensureJsonExtension] of utils/fileManagement is
    not part of the sources at hand.  "[ensureExtension(name)]: appends the
    canonical extension if missing". *)
Definition ensureExtension (name : string) : string :=
  if endsWith name jsonExtension then name else name +:+ jsonExtension.

(** The extension of a file name starts at its last dot; a name without a
    dot has none.  [splitExtension name] is [(basename, extension)]. *)
Fixpoint splitExtension (name : string) : string * string :=
  match name with
  | EmptyString => (EmptyString, EmptyString)
  | String c rest =>
      let '(base, ext) := splitExtension rest in
      match ext with
      | String _ _ => (String c base, ext)
      | EmptyString =>
          if Ascii.eqb c "."%char then (EmptyString, String c rest)
          else (String c base, EmptyString)
      end
  end.

(** The name tried at a given value of the counter. *)
Definition numbered (baseName extension : string) (counter : nat) : string :=
  baseName +:+ " (" +:+ pretty counter +:+ ")" +:+ extension.

(** The loop "while the name exists, increment the counter and try the next
    numbered name"; [fuel] bounds the number of existence tests. *)
Fixpoint uniqueLoop (fileExists : string -> bool) (baseName extension : string)
    (fuel counter : nat) (uniqueFilename : string) : option string :=
  match fuel with
  | O => None
  | S fuel' =>
      if fileExists uniqueFilename
      then uniqueLoop fileExists baseName extension fuel' (S counter)
             (numbered baseName extension (S counter))
      else Some uniqueFilename
  end.

(** Modelled from the spec: [generateUniqueFileName] of
    utils/generateUniqueFilename is not part of the sources at hand.
    "[generateUniqueName(directory, requestedName)]: if [requestedName]
    collides with an existing file in [directory], appends a disambiguating
    suffix (e.g., incrementing counter) until unique", the suffix going
    before the extension as in "Show A (1).json".  [entries] is the number
    of files present, which bounds the loop. *)
Definition generateUniqueName (fileExists : string -> bool) (entries : nat)
    (requestedName : string) : option string :=
  let '(baseName, extension) := splitExtension requestedName in
  uniqueLoop fileExists baseName extension (S (S entries)) 0 requestedName.

(** ** An in-memory project store

    The file system is a finite map from paths to JSON documents of the
    [DatabaseModel] shape; next to it live the application state and the
    active project. *)

Record World : Type := mkWorld {
  files : gmap string DatabaseModel;
  appState : AppState;
  active : DatabaseModel
}.

Definition dbDirectory : string := "/ontime/db".
Definition projectsDirectory : string := "/ontime/projects".

(** The store's own paths: directory, slash, name, which is what
    [path.join] gives for a plain file name in these directories. *)
Definition joinPath (directory name : string) : string :=
  directory +:+ "/" +:+ name.

Definition pathExists (path : string) (w : World) : bool :=
  bool_decide (path ∈ dom (files w)).

Definition projectPath (name : string) : string :=
  joinPath projectsDirectory name.

(** Property access on a JSON object value. *)
Fixpoint assoc (k : string) (l : list (string * JSVal)) : JSVal :=
  match l with
  | [] => JUndefined
  | (k', v) :: l' => if String.eqb k k' then v else assoc k l'
  end.

Definition jsGet (v : JSVal) (k : string) : JSVal :=
  match v with
  | JObj l => assoc k l
  | _ => JUndefined
  end.

Definition present (new old : JSVal) : JSVal :=
  match new with
  | JUndefined => old
  | _ => new
  end.

(** Modelled from the spec: "merges only present top-level fields into the
    active in-memory model; absent fields are left untouched". *)
Definition mergeModel (old patch : DatabaseModel) : DatabaseModel :=
  mkDatabaseModel
    (present (rundown patch) (rundown old))
    (present (project patch) (project old))
    (present (settings patch) (settings old))
    (present (viewSettings patch) (viewSettings old))
    (present (urlPresets patch) (urlPresets old))
    (present (customFields patch) (customFields old))
    (present (osc patch) (osc old))
    (present (http patch) (http old)).

Definition emptyModel : DatabaseModel :=
  mkDatabaseModel (JArr []) (JObj []) (JObj []) (JObj []) (JArr []) (JObj [])
    (JObj []) (JObj []).

Definition projectJson (d : ProjectData) : JSVal :=
  JObj [("title", title d); ("description", description d);
        ("publicUrl", publicUrl d); ("publicInfo", publicInfo d);
        ("backstageUrl", backstageUrl d); ("backstageInfo", backstageInfo d)].

Definition newProjectFile (d : ProjectData) : DatabaseModel :=
  mkDatabaseModel (JArr []) (projectJson d) (JObj []) (JObj []) (JArr [])
    (JObj []) (JObj []) (JObj []).

Section Store.

(** What makes a merged model structurally valid is left open by the spec. *)
Variable structurallyValid : DatabaseModel -> bool.

(** Modelled from the spec: "[validate(operation)]: checks that the source
    file exists and, for rename/duplicate, that the target filename does not
    already exist; returns a list of human-readable error strings". *)
Definition storeValidate (p : ProjectFiles) (w : World) : list string :=
  match pf_filename p with
  | JStr name =>
      if pathExists (projectPath name) w then []
      else ["Project file does not exist"]
  | _ => []
  end ++
  match pf_newFilename p with
  | JStr name =>
      if pathExists (projectPath name) w then ["New project file already exists"]
      else []
  | _ => []
  end.

(** Modelled from the spec: "[create(filename, metadata)]: writes a new
    project file with default empty rundown/settings plus given metadata;
    fails with [ConflictError] if filename exists". *)
Definition storeCreate (filename : string) (d : ProjectData) (w : World)
    : result unit * World :=
  if pathExists (projectPath filename) w then (Throw "ConflictError", w)
  else (Ok tt,
        mkWorld (<[projectPath filename := newProjectFile d]> (files w))
          (appState w) (active w)).

(** Modelled from the spec: "[delete(filename)]: removes the file; fails
    with [NotFoundError] if absent". *)
Definition storeDelete (filename : string) (w : World) : result unit * World :=
  if pathExists (projectPath filename) w
  then (Ok tt, mkWorld (delete (projectPath filename) (files w)) (appState w) (active w))
  else (Throw "NotFoundError", w).

(** Modelled from the spec: "[rename(oldName, newName)],
    [duplicate(oldName, newName)]: filesystem rename/copy; both require
    prior validation and fail with [ConflictError] otherwise". *)
Definition storeCopy (remove : bool) (oldName : string) (newName : JSVal) (w : World)
    : result unit * World :=
  match newName, files w !! projectPath oldName with
  | JStr target, Some content =>
      if pathExists (projectPath target) w then (Throw "ConflictError", w)
      else
        let copied := <[projectPath target := content]> (files w) in
        (Ok tt,
         mkWorld (if remove then delete (projectPath oldName) copied else copied)
           (appState w) (active w))
  | _, _ => (Throw "ConflictError", w)
  end.

(** Modelled from the spec: "[applyFile(filename, options)]: loads file
    contents, parses into the in-memory active model, replacing or merging
    state depending on [options]", followed by "[recordLoad(filename)]:
    updates [lastLoadedProject]".  The option that asks for a merge is
    taken to be a truthy [merge] key. *)
Definition storeApplyFile (name options : JSVal) (w : World) : result unit * World :=
  match name with
  | JStr filename =>
      match files w !! projectPath filename with
      | Some content =>
          let model :=
            if truthy (jsGet options "merge") then mergeModel (active w) content
            else content in
          if structurallyValid model
          then (Ok tt, mkWorld (files w) (mkAppState (Some filename)) model)
          else (Throw "ValidationError", w)
      | None => (Throw "NotFoundError", w)
      end
  | _ => (Throw "NotFoundError", w)
  end.

(** Modelled from the spec: "[applyPatch(partialModel)]: merges only present
    top-level fields into the active in-memory model; fails with
    [ValidationError] if the merged result is structurally invalid". *)
Definition storeApplyPatch (patch : DatabaseModel) (w : World)
    : result DatabaseModel * World :=
  let merged := mergeModel (active w) patch in
  if structurallyValid merged
  then (Ok merged, mkWorld (files w) (appState w) merged)
  else (Throw "ValidationError", w).

(** The upload is moved from its temporary path into the projects
    directory. *)
Definition storeUpload (path filename : string) (w : World) : result unit * World :=
  match files w !! path with
  | Some content =>
      (Ok tt,
       mkWorld (<[projectPath filename := content]> (delete path (files w)))
         (appState w) (active w))
  | None => (Throw "NotFoundError", w)
  end.

Definition storeTitle (w : World) : string :=
  jsToString (jsGet (project (active w)) "title").

Definition storeEnsure (name : JSVal) : result string :=
  match name with
  | JStr s => Ok (ensureExtension s)
  | _ => Throw "TypeError"
  end.

Definition storeUnique (directory requestedName : string) (w : World) : result string :=
  match generateUniqueName (fun name => pathExists (joinPath directory name) w)
          (size (files w)) requestedName with
  | Some name => Ok name
  | None => Throw "RangeError"
  end.

Definition storeExists (name : JSVal) (w : World) : bool :=
  match name with
  | JStr s => pathExists (projectPath s) w
  | _ => false
  end.

Definition storeList (w : World) : JSVal :=
  JArr (map JStr
          (filter (fun path => String.prefix (projectsDirectory +:+ "/") path = true)
             (elements (dom (files w))))).

Definition storeInfo (w : World) : JSVal :=
  JObj [("title", jsGet (project (active w)) "title");
        ("lastLoadedProject",
         match lastLoadedProject (appState w) with
         | Some name => JStr name
         | None => JNull
         end)].

Definition storeEnv : Env World :=
  {| resolveDbDirectory := dbDirectory;
     resolveProjectsDirectory := projectsDirectory;
     join := joinPath;
     existsSync := pathExists;
     download := fun path _ w => if pathExists path w then None else Some "ENOENT";
     ensureJsonExtension := storeEnsure;
     generateUniqueFileName := storeUnique;
     appStateGet := fun w => Ok (appState w);
     applyDataModel := storeApplyPatch;
     validateProjectFiles := fun p w => Ok (storeValidate p w);
     createProject := storeCreate;
     getProjectTitle := fun w => Ok (storeTitle w);
     handleUploadedFile := storeUpload;
     applyProjectFile := storeApplyFile;
     getProjectList := fun w => Ok (storeList w);
     doesProjectExist := fun name w => Ok (storeExists name w);
     duplicateProject := storeCopy false;
     renameProject := storeCopy true;
     deleteProject := storeDelete;
     getProjectInfo := fun w => Ok (storeInfo w) |}.

End Store.

(** ** Variations of an environment, used to compare runs *)


(** An environment whose read-only lookups of the active project fail. *)
Definition withUnreadableProject {W} (error : string) (env : Env W) : Env W :=
  mkEnv W (resolveDbDirectory env) (resolveProjectsDirectory env) (join env)
    (existsSync env) (download env) (ensureJsonExtension env)
    (generateUniqueFileName env) (appStateGet env) (applyDataModel env)
    (validateProjectFiles env) (createProject env) (fun _ => Throw error)
    (handleUploadedFile env) (applyProjectFile env) (getProjectList env)
    (doesProjectExist env) (duplicateProject env) (renameProject env)
    (deleteProject env) (fun _ => Throw error).

(** ** Statements about handler runs *)

(** The name the download handler looks for: the requested one with the
    extension ensured, or the title of the loaded project. *)
Definition downloadName {W} (env : Env W) (req : Request) (w : W) : result string :=
  if truthy (field (body req) "fileName")
  then ensureJsonExtension env (field (body req) "fileName")
  else getProjectTitle env w.


(** A handler catches at its boundary: whatever the services do, the run
    ends normally with exactly one response sent, an error response carries
    a [{message}] body, and an error raised by a service call is answered
    with status 400 or 500 and that error's message. *)
Definition catchesAtBoundary
    (handler : forall W : Type, Env W -> Request -> M W unit) : Prop :=
  forall (W : Type) (env : Env W) (req : Request) (st : HState W),
  exists (w' : W) (events : list Event) (r : Response),
    handler W env req st
      = (Ok tt, mkHState w' (log st ++ events) (sent st ++ [r]))
    /\ (400 <= status r -> exists m, payload r = Message m)
    /\ (forall e, Raise e ∈ events ->
          payload r = Message (getErrorMessage e)
          /\ (status r = 400 \/ status r = 500)).

(** ** Concrete stores and requests used as test inputs *)

Definition acceptAll (_ : DatabaseModel) : bool := true.

Definition demoEnv : Env World := storeEnv acceptAll.

Definition showWorld : World :=
  mkWorld
    {[ "/ontime/projects/Show A.json" := emptyModel;
       "/ontime/projects/Show B.json" := emptyModel;
       "/ontime/db/Show A.json" := emptyModel ]}
    (mkAppState (Some "Show A.json"))
    (newProjectFile
       (mkProjectData (JStr "Show A.json") (JStr "") (JStr "") (JStr "")
          (JStr "") (JStr ""))).

Definition showState : HState World := mkHState showWorld [] [].

Definition requestFor (filename : string) (fields : list (string * JSVal)) : Request :=
  mkRequest filename (list_to_map fields) (JObj []) None.

Definition untitledData : ProjectData :=
  mkProjectData (JStr "") (JStr "") (JStr "") (JStr "") (JStr "") (JStr "").

(** ** Observing a run

    Handlers only append to the trace and to the list of responses; what a
    run added is what follows the part that was there when it started. *)

Definition newEvents {W} (st st' : HState W) : list Event :=
  drop (List.length (log st)) (log st').

Definition newResponses {W} (st st' : HState W) : list Response :=
  drop (List.length (sent st)) (sent st').

(** The keys [patchPartialProjectFile] reads from the body. *)
Definition patchFields : list string :=
  ["rundown"; "project"; "settings"; "viewSettings"; "urlPresets";
   "customFields"; "osc"; "http"].

(** The patch [patchPartialProjectFile] builds from a body. *)
Definition patchOf (b : gmap string JSVal) : DatabaseModel :=
  mkDatabaseModel (field b "rundown") (field b "project") (field b "settings")
    (field b "viewSettings") (field b "urlPresets") (field b "customFields")
    (field b "osc") (field b "http").

(** [v == null]: the values [??] replaces. *)
Definition nullish (v : JSVal) : bool :=
  match v with
  | JUndefined | JNull => true
  | _ => false
  end.

Definition withBody (b : gmap string JSVal) (req : Request) : Request :=
  mkRequest (params_filename req) b (query req) (file req).

(** The project data [createProjectFile] builds from a body. *)
Definition projectDataOf (b : gmap string JSVal) : ProjectData :=
  mkProjectData
    (js_nullish (field b "title") (JStr ""))
    (js_nullish (field b "description") (JStr ""))
    (js_nullish (field b "publicUrl") (JStr ""))
    (js_nullish (field b "publicInfo") (JStr ""))
    (js_nullish (field b "backstageUrl") (JStr ""))
    (js_nullish (field b "backstageInfo") (JStr "")).

Definition projectDataFields (d : ProjectData) : list JSVal :=
  [title d; description d; publicUrl d; publicInfo d; backstageUrl d;
   backstageInfo d].

(** A store that rejects every model, and an upload waiting in a temporary
    file. *)
Definition rejectAll (_ : DatabaseModel) : bool := false.

Definition uploadWorld : World :=
  mkWorld
    {[ "/tmp/upload-1" := emptyModel;
       "/ontime/projects/Show A.json" := emptyModel ]}
    (mkAppState (Some "Show A.json")) emptyModel.

Definition uploadState : HState World := mkHState uploadWorld [] [].

Definition uploadRequest : Request :=
  mkRequest "" ∅ (JObj []) (Some (mkUploadedFile "Show C.json" "/tmp/upload-1")).

(** ** Catching, handler by handler

    The refinement of [catchesAtBoundary] that the handlers with a
    [try]/[catch] satisfy.  [code] is the status of the [catch] block;
    [admitted] selects the requests that reach the [try] block; [unawaited]
    marks the service calls whose result the handler does not wait for, for
    which nothing is said about how an error of theirs is answered. *)
Definition catchesWith (code : nat) (admitted : Request -> Prop)
    (unawaited : ServiceCall -> Prop)
    (handler : forall W : Type, Env W -> Request -> M W unit) : Prop :=
  forall (W : Type) (env : Env W) (req : Request) (st : HState W),
  admitted req ->
  exists (w' : W) (events : list Event) (r : Response),
    handler W env req st
      = (Ok tt, mkHState w' (log st ++ events) (sent st ++ [r]))
    /\ (400 <= status r -> exists m, payload r = Message m)
    /\ (forall e, Raise e ∈ events ->
          (forall c, Call c ∈ events -> ~ unawaited c) ->
          payload r = Message (getErrorMessage e) /\ status r = code).

Definition anyRequest (_ : Request) : Prop := True.

Definition nonEmptyBody (req : Request) : Prop := body req <> ∅.

Definition everyCallAwaited (_ : ServiceCall) : Prop := False.

(** [projectService.createProjectFile(..)] is the one call of the controller
    whose result is neither awaited nor used. *)
Definition isCreateCall (c : ServiceCall) : Prop :=
  match c with
  | CCreateProjectFile _ _ => True
  | _ => False
  end.

(** ** Node's [path.join] on POSIX paths

    [join] of the controller is [path.join] of Node: the non-empty
    arguments are put together with a slash and the result is normalised,
    which drops empty and [.] segments and resolves [..] against the segment
    before it. *)

Fixpoint splitSlash (path : string) : list string :=
  match path with
  | EmptyString => [EmptyString]
  | String c rest =>
      if Ascii.eqb c "/"%char then EmptyString :: splitSlash rest
      else
        match splitSlash rest with
        | segment :: segments => String c segment :: segments
        | [] => [String c EmptyString]
        end
  end.

(** One segment against the segments kept so far (last kept first). *)
Definition normalizeStep (allowAboveRoot : bool) (kept : list string)
    (segment : string) : list string :=
  if String.eqb segment "" || String.eqb segment "." then kept
  else if String.eqb segment ".." then
    match kept with
    | top :: below =>
        if String.eqb top ".."
        then (if allowAboveRoot then segment :: kept else kept)
        else below
    | [] => if allowAboveRoot then [segment] else []
    end
  else segment :: kept.

Definition normalizeSegments (allowAboveRoot : bool) (segments : list string)
    : list string :=
  rev (fold_left (normalizeStep allowAboveRoot) segments []).

Definition isAbsolute (path : string) : bool :=
  match path with
  | String c _ => Ascii.eqb c "/"%char
  | EmptyString => false
  end.

(** The segments of a path after normalisation. *)
Definition normalSegments (path : string) : list string :=
  normalizeSegments (negb (isAbsolute path)) (splitSlash path).

Definition pathNormalize (path : string) : string :=
  if String.eqb path "" then "."
  else
    let absolute := isAbsolute path in
    let inner := String.concat "/" (normalSegments path) in
    let inner := if String.eqb inner "" && negb absolute then "." else inner in
    let inner :=
      if negb (String.eqb inner "") && endsWith path "/"
      then inner +:+ "/" else inner in
    if absolute then "/" +:+ inner else inner.

Definition pathJoin (first second : string) : string :=
  let joined :=
    if String.eqb first "" then second
    else if String.eqb second "" then first
    else first +:+ "/" +:+ second in
  if String.eqb joined "" then "." else pathNormalize joined.





(** * Proofs *)

(** ** Running the monad *)

Lemma bind_ok {W A B} (m : M W A) (k : A -> M W B) st a st' :
  m st = (Ok a, st') -> bind m k st = k a st'.
Proof. intros Hm. unfold bind. now rewrite Hm. Qed.

Lemma bind_throw {W A B} (m : M W A) (k : A -> M W B) st e st' :
  m st = (Throw e, st') -> bind m k st = (Throw e, st').
Proof. intros Hm. unfold bind. now rewrite Hm. Qed.

Lemma ask_ok {W A} (c : ServiceCall) (op : W -> result A) st a :
  op (world st) = Ok a ->
  ask c op st = (Ok a, mkHState (world st) (log st ++ [Call c]) (sent st)).
Proof. intros Hop. unfold ask, call. now rewrite Hop. Qed.

Lemma ask_throw {W A} (c : ServiceCall) (op : W -> result A) st e :
  op (world st) = Throw e ->
  ask c op st
    = (Throw e, mkHState (world st) (log st ++ [Call c; Raise e]) (sent st)).
Proof. intros Hop. unfold ask, call. now rewrite Hop. Qed.

Lemma call_ok {W A} (c : ServiceCall) (op : W -> result A * W) st a w' :
  op (world st) = (Ok a, w') ->
  call c op st = (Ok a, mkHState w' (log st ++ [Call c]) (sent st)).
Proof. intros Hop. unfold call. now rewrite Hop. Qed.

Lemma call_throw {W A} (c : ServiceCall) (op : W -> result A * W) st e w' :
  op (world st) = (Throw e, w') ->
  call c op st = (Throw e, mkHState w' (log st ++ [Call c; Raise e]) (sent st)).
Proof. intros Hop. unfold call. now rewrite Hop. Qed.

Lemma nonempty_length_test {A} (l : list A) :
  l <> [] -> negb (Nat.eqb (List.length l) 0) = true.
Proof. destruct l; [congruence | reflexivity]. Qed.

Ltac step_ask H :=
  first [ erewrite (bind_ok (ask _ _)) by (apply ask_ok; exact H)
        | erewrite (bind_throw (ask _ _)) by (apply ask_throw; exact H) ];
  cbn [world log sent].

Ltac step_call H :=
  first [ erewrite (bind_ok (call _ _)) by (apply call_ok; exact H)
        | erewrite (bind_throw (call _ _)) by (apply call_throw; exact H) ];
  cbn [world log sent].

(** ** Guarding the loaded project (delete) *)

(** C1. A delete request for the file that the application state reports as
    [lastLoadedProject] is answered 403; the only service called is the
    state lookup, so neither [validateProjectFiles] nor the delete operation
    runs, whatever they would have returned, and the service state (files
    and application state) is the one the run started from. *)
Theorem delete_loaded_project_is_forbidden {W} (env : Env W) (req : Request)
    (st : HState W) (state : AppState) :
  appStateGet env (world st) = Ok state ->
  lastLoadedProject state = Some (params_filename req) ->
  deleteProjectFile env req st
    = (Ok tt,
       mkHState (world st) (log st ++ [Call CAppStateGet])
         (sent st ++
            [mkResponse 403 (Message "Cannot delete currently loaded project")])).
Proof.
  intros Hget Hloaded. unfold deleteProjectFile, tryCatch.
  step_ask Hget.
  rewrite bool_decide_eq_true_2 by exact Hloaded.
  reflexivity.
Qed.

Lemma delete_loaded_project_is_forbidden_witness :
  deleteProjectFile demoEnv (requestFor "Show A.json" []) showState
    = (Ok tt,
       mkHState showWorld [Call CAppStateGet]
         [mkResponse 403 (Message "Cannot delete currently loaded project")]).
Proof.
  apply (delete_loaded_project_is_forbidden demoEnv
           (requestFor "Show A.json" []) showState
           (mkAppState (Some "Show A.json"))); reflexivity.
Defined.

(** ** Empty patch *)

(** C4. A patch request whose body is the empty object is answered 400
    without any service call: [applyDataModel] is not run and the active
    model is the one the run started from. *)
Theorem patch_empty_body_is_rejected {W} (env : Env W) (req : Request)
    (st : HState W) :
  body req = ∅ ->
  patchPartialProjectFile env req st
    = (Ok tt,
       mkHState (world st) (log st)
         (sent st ++ [mkResponse 400 (Message "No field found to patch")])).
Proof.
  intros Hbody. unfold patchPartialProjectFile, failEmptyObjects.
  rewrite bool_decide_eq_true_2 by exact Hbody.
  reflexivity.
Qed.

Lemma patch_empty_body_is_rejected_witness :
  patchPartialProjectFile demoEnv (requestFor "" []) showState
    = (Ok tt,
       mkHState showWorld []
         [mkResponse 400 (Message "No field found to patch")]).
Proof.
  apply (patch_empty_body_is_rejected demoEnv (requestFor "" []) showState).
  reflexivity.
Defined.

(** ** Validation before rename and duplicate *)

(** In the project store, a target that exists makes the validation of a
    rename or duplicate report an error. *)
Lemma storeValidate_target_exists (source : JSVal) (target : string) (w : World) :
  pathExists (projectPath target) w = true ->
  storeValidate (mkProjectFiles source (JStr target)) w <> [].
Proof.
  intros Hexists. unfold storeValidate. cbn [pf_filename pf_newFilename].
  rewrite Hexists. intros Hnil. apply app_eq_nil in Hnil as [_ Hnil].
  discriminate Hnil.
Qed.

(** C5. When [validateProjectFiles] reports a non-empty error list for the
    source and target of a rename or duplicate request (as it does for a
    target that already exists), the handler answers 409 with the errors
    joined by a comma as message; validation is the only service call, so
    the rename or duplicate operation is not run. *)
Theorem rename_duplicate_conflict {W} (env : Env W) (req : Request)
    (st : HState W) (errors : list string) :
  let checked :=
    mkProjectFiles (JStr (params_filename req)) (field (body req) "newFilename") in
  let answered :=
    mkHState (world st) (log st ++ [Call (CValidateProjectFiles checked)])
      (sent st ++ [mkResponse 409 (Message (String.concat ", " errors))]) in
  validateProjectFiles env checked (world st) = Ok errors ->
  errors <> [] ->
  renameProjectFile env req st = (Ok tt, answered)
  /\ duplicateProjectFile env req st = (Ok tt, answered).
Proof.
  intros checked answered Hval Hne.
  split; unfold renameProjectFile, duplicateProjectFile, tryCatch;
    step_ask Hval; rewrite (nonempty_length_test errors Hne); reflexivity.
Qed.

(** ** Loading a missing project *)

(** C6. When the project named by a load request does not exist, the handler
    answers 404; the existence test is the only service call, so
    [applyProjectFile] is not run and the service state, with its
    [lastLoadedProject], is unchanged. *)
Theorem load_missing_project_is_404 {W} (env : Env W) (req : Request)
    (st : HState W) :
  doesProjectExist env (field (body req) "filename") (world st) = Ok false ->
  loadProject env req st
    = (Ok tt,
       mkHState (world st)
         (log st ++ [Call (CDoesProjectExist (field (body req) "filename"))])
         (sent st ++ [mkResponse 404 (Message "File not found")])).
Proof.
  intros Hmissing. unfold loadProject, tryCatch.
  step_ask Hmissing. reflexivity.
Qed.

Lemma load_missing_project_is_404_witness :
  loadProject demoEnv (requestFor "" [("filename", JStr "Nowhere.json")]) showState
    = (Ok tt,
       mkHState showWorld [Call (CDoesProjectExist (JStr "Nowhere.json"))]
         [mkResponse 404 (Message "File not found")])
  /\ lastLoadedProject (appState showWorld) = Some "Show A.json".
Proof.
  split; [| reflexivity].
  apply (load_missing_project_is_404 demoEnv
           (requestFor "" [("filename", JStr "Nowhere.json")]) showState).
  vm_compute. reflexivity.
Defined.

Lemma rename_duplicate_conflict_witness :
  let req := requestFor "Show A.json" [("newFilename", JStr "Show B.json")] in
  let answered :=
    mkHState showWorld
      [Call (CValidateProjectFiles
               (mkProjectFiles (JStr "Show A.json") (JStr "Show B.json")))]
      [mkResponse 409 (Message "New project file already exists")] in
  pathExists (projectPath "Show B.json") showWorld = true
  /\ renameProjectFile demoEnv req showState = (Ok tt, answered)
  /\ duplicateProjectFile demoEnv req showState = (Ok tt, answered).
Proof.
  split; [vm_compute; reflexivity |].
  apply (rename_duplicate_conflict demoEnv
           (requestFor "Show A.json" [("newFilename", JStr "Show B.json")])
           showState
           (storeValidate
              (mkProjectFiles (JStr "Show A.json") (JStr "Show B.json")) showWorld)).
  - vm_compute. reflexivity.
  - apply storeValidate_target_exists. vm_compute. reflexivity.
Defined.

(** ** Catching at the boundary *)

Lemma raised_in_events (e : string) (events : list Event) (P : Prop) :
  Raise e ∈ events ->
  Forall (fun ev => match ev with Raise e' => e' = e -> P | Call _ => True end) events ->
  P.
Proof.
  intros Hin Hall. rewrite Forall_forall in Hall.
  exact (Hall _ Hin eq_refl).
Qed.

Ltac answer_raised :=
  let e := fresh "e" in
  let Hin := fresh "Hin" in
  intros e Hin _; apply (raised_in_events e _ _ Hin);
  repeat (apply Forall_cons_2; [first [exact I | intros ->; auto] |]);
  apply Forall_nil_2.

Ltac boundary_case :=
  cbn [world log sent negb];
  rewrite <- ?app_assoc; cbn [app];
  eexists _, _, _; split; [reflexivity |];
  cbn [status payload]; split; [intros ?; first [lia | eauto] | answer_raised].

Lemma patch_catches :
  catchesWith 400 nonEmptyBody everyCallAwaited (@patchPartialProjectFile).
Proof.
  intros W env req st Hbody. unfold patchPartialProjectFile, failEmptyObjects.
  rewrite bool_decide_eq_false_2 by exact Hbody.
  unfold tryCatch, bind, call, send, getErrorMessage.
  destruct (applyDataModel env _ (world st)) as [[newData | e1] w1];
    boundary_case.
Qed.

Lemma create_catches :
  catchesWith 500 anyRequest isCreateCall (@createProjectFile).
Proof.
  intros W env req st _. unfold createProjectFile.
  unfold tryCatch, bind, ask, call, send, getErrorMessage.
  destruct (ensureJsonExtension env _) as [originalFilename | e1];
    cbn [world log sent]; [| boundary_case].
  destruct (generateUniqueFileName env _ originalFilename (world st))
    as [filename | e2]; cbn [world log sent]; [| boundary_case].
  destruct (validateProjectFiles env _ (world st)) as [errors | e3];
    cbn [world log sent]; [| boundary_case].
  destruct (negb (Nat.eqb (List.length errors) 0)); [boundary_case |].
  cbn [world log sent].
  destruct (createProject env filename _ (world st)) as [[[] | e4] w'];
    boundary_case.
Qed.

Lemma upload_catches :
  catchesWith 400 anyRequest everyCallAwaited (@postProjectFile).
Proof.
  intros W env req st _. unfold postProjectFile.
  destruct (file req) as [f |].
  - unfold tryCatch, bind, call, send, getErrorMessage.
    destruct (handleUploadedFile env _ _ (world st)) as [[[] | e1] w1];
      cbn [world log sent]; [| boundary_case].
    destruct (applyProjectFile env _ _ w1) as [[[] | e2] w2]; boundary_case.
  - unfold send. eexists _, [], _. rewrite app_nil_r. split; [reflexivity |].
    cbn [status payload]. split; [eauto | intros e He; inversion He].
Qed.

Lemma list_catches :
  catchesWith 500 anyRequest everyCallAwaited
    (fun W env req => @listProjects W env req).
Proof.
  intros W env req st _. unfold listProjects.
  unfold tryCatch, bind, ask, call, send, getErrorMessage.
  destruct (getProjectList env (world st)) as [data | e1]; boundary_case.
Qed.

Lemma load_catches :
  catchesWith 500 anyRequest everyCallAwaited (@loadProject).
Proof.
  intros W env req st _. unfold loadProject.
  unfold tryCatch, bind, ask, call, send, getErrorMessage.
  destruct (doesProjectExist env _ (world st)) as [[|] | e1];
    cbn [world log sent negb]; [| boundary_case | boundary_case].
  destruct (applyProjectFile env _ _ (world st)) as [[[] | e2] w2]; boundary_case.
Qed.

Lemma duplicate_catches :
  catchesWith 500 anyRequest everyCallAwaited (@duplicateProjectFile).
Proof.
  intros W env req st _. unfold duplicateProjectFile.
  unfold tryCatch, bind, ask, call, send, getErrorMessage.
  destruct (validateProjectFiles env _ (world st)) as [errors | e1];
    cbn [world log sent]; [| boundary_case].
  destruct (negb (Nat.eqb (List.length errors) 0)); [boundary_case |].
  cbn [world log sent].
  destruct (duplicateProject env _ _ (world st)) as [[[] | e2] w2]; boundary_case.
Qed.

Lemma rename_catches :
  catchesWith 500 anyRequest everyCallAwaited (@renameProjectFile).
Proof.
  intros W env req st _. unfold renameProjectFile.
  unfold tryCatch, bind, ask, call, send, getErrorMessage.
  destruct (validateProjectFiles env _ (world st)) as [errors | e1];
    cbn [world log sent]; [| boundary_case].
  destruct (negb (Nat.eqb (List.length errors) 0)); [boundary_case |].
  cbn [world log sent].
  destruct (renameProject env _ _ (world st)) as [[[] | e2] w2]; boundary_case.
Qed.

Lemma delete_catches :
  catchesWith 500 anyRequest everyCallAwaited (@deleteProjectFile).
Proof.
  intros W env req st _. unfold deleteProjectFile.
  unfold tryCatch, bind, ask, call, send, getErrorMessage.
  destruct (appStateGet env (world st)) as [state | e1];
    cbn [world log sent]; [| boundary_case].
  destruct (bool_decide _); [boundary_case |]. cbn [world log sent].
  destruct (validateProjectFiles env _ (world st)) as [errors | e2];
    cbn [world log sent]; [| boundary_case].
  destruct (negb (Nat.eqb (List.length errors) 0)); [boundary_case |].
  cbn [world log sent].
  destruct (deleteProject env _ (world st)) as [[[] | e3] w3]; boundary_case.
Qed.

(** C3, as the code has it.  Each of the eight handlers with a
    [try]/[catch] ends with exactly one response of its own, an error
    response carries a [{message}] body, and an error raised by a service
    call inside the [try] is answered with that error's message under the
    status of the handler's [catch]: 400 for patch and upload, 500 for
    create, list, load, duplicate, rename and delete.  For patch this is
    said of the requests whose body the emptiness test lets through; for
    create it is said of the runs that do not reach the call of
    [projectService.createProjectFile], which is not awaited. *)
Theorem handlers_with_try_catch_at_boundary :
  catchesWith 400 nonEmptyBody everyCallAwaited (@patchPartialProjectFile)
  /\ catchesWith 500 anyRequest isCreateCall (@createProjectFile)
  /\ catchesWith 400 anyRequest everyCallAwaited (@postProjectFile)
  /\ catchesWith 500 anyRequest everyCallAwaited
       (fun W env req => @listProjects W env req)
  /\ catchesWith 500 anyRequest everyCallAwaited (@loadProject)
  /\ catchesWith 500 anyRequest everyCallAwaited (@duplicateProjectFile)
  /\ catchesWith 500 anyRequest everyCallAwaited (@renameProjectFile)
  /\ catchesWith 500 anyRequest everyCallAwaited (@deleteProjectFile).
Proof.
  repeat split;
    auto using patch_catches, create_catches, upload_catches, list_catches,
      load_catches, duplicate_catches, rename_catches, delete_catches.
Qed.

Lemma handlers_with_try_catch_at_boundary_witness :
  nonEmptyBody (requestFor "" [("settings", JObj [])])
  /\ exists w' events r,
       patchPartialProjectFile (storeEnv rejectAll)
         (requestFor "" [("settings", JObj [])]) showState
       = (Ok tt, mkHState w' (log showState ++ events) (sent showState ++ [r]))
       /\ (Raise "ValidationError" ∈ events ->
           (forall c, Call c ∈ events -> ~ everyCallAwaited c) ->
           payload r = Message "ValidationError" /\ status r = 400).
Proof.
  assert (Hbody : nonEmptyBody (requestFor "" [("settings", JObj [])])).
  { intros Hempty.
    apply (f_equal (fun b : gmap string JSVal => b !! "settings")) in Hempty.
    vm_compute in Hempty. discriminate Hempty. }
  split; [exact Hbody |].
  destruct handlers_with_try_catch_at_boundary as [Hpatch _].
  destruct (Hpatch World (storeEnv rejectAll)
              (requestFor "" [("settings", JObj [])]) showState Hbody)
    as (w' & events & r & Hrun & _ & Hraised).
  exists w', events, r. split; [exact Hrun |].
  apply (Hraised "ValidationError").
Defined.

(** C3, as stated, fails for the two handlers without a [catch] around
    their service call: when the project service cannot read the active
    project, the error leaves [getInfo], and [projectDownload] for a request
    naming no file, and no response is sent. *)
Lemma info_and_download_let_errors_escape :
  getInfo (withUnreadableProject "EIO" demoEnv) (requestFor "" []) showState
    = (Throw "EIO", mkHState showWorld [Call CGetInfo; Raise "EIO"] [])
  /\ projectDownload (withUnreadableProject "EIO" demoEnv) (requestFor "" []) showState
    = (Throw "EIO", mkHState showWorld [Call CGetProjectTitle; Raise "EIO"] [])
  /\ ~ catchesAtBoundary (fun W env req => @getInfo W env req)
  /\ ~ catchesAtBoundary (@projectDownload).
Proof.
  split; [reflexivity |]. split; [reflexivity |]. split.
  - intros Hcatch.
    destruct (Hcatch World (withUnreadableProject "EIO" demoEnv)
                (requestFor "" []) showState) as (w' & events & r & Hrun & _).
    discriminate Hrun.
  - intros Hcatch.
    destruct (Hcatch World (withUnreadableProject "EIO" demoEnv)
                (requestFor "" []) showState) as (w' & events & r & Hrun & _).
    discriminate Hrun.
Qed.

(** ** Creating without a title *)

(** C9, as the code has it.  When the body of a create request has no
    title, a [null] title or the empty string as title, the name handed to
    the filename policy is ["Untitled"]: provided the services succeed for
    that name, the handler answers 200 with the file name generated from
    [ensureJsonExtension("Untitled")], and the project data it stores has
    the empty string as title. *)
Theorem create_without_title_uses_untitled {W} (env : Env W) (req : Request)
    (st : HState W) (originalFilename filename : string) (w' : W) :
  let data :=
    mkProjectData (JStr "")
      (js_nullish (field (body req) "description") (JStr ""))
      (js_nullish (field (body req) "publicUrl") (JStr ""))
      (js_nullish (field (body req) "publicInfo") (JStr ""))
      (js_nullish (field (body req) "backstageUrl") (JStr ""))
      (js_nullish (field (body req) "backstageInfo") (JStr "")) in
  field (body req) "title" = JUndefined
  \/ field (body req) "title" = JNull
  \/ field (body req) "title" = JStr "" ->
  ensureJsonExtension env (JStr "Untitled") = Ok originalFilename ->
  generateUniqueFileName env (resolveProjectsDirectory env) originalFilename (world st)
    = Ok filename ->
  validateProjectFiles env (mkProjectFiles JUndefined (JStr filename)) (world st)
    = Ok [] ->
  createProject env filename data (world st) = (Ok tt, w') ->
  createProjectFile env req st
    = (Ok tt,
       mkHState w'
         (log st ++
            [Call (CEnsureJsonExtension (JStr "Untitled"));
             Call (CGenerateUniqueFileName (resolveProjectsDirectory env)
                     originalFilename);
             Call (CValidateProjectFiles (mkProjectFiles JUndefined (JStr filename)));
             Call (CCreateProjectFile filename data)])
         (sent st ++ [mkResponse 200 (FilenameBody filename)])).
Proof.
  intros data Htitle Hensure Hunique Hvalid Hcreate.
  assert (Hor : js_or (field (body req) "title") (JStr "Untitled") = JStr "Untitled").
  { destruct Htitle as [-> | [-> | ->]]; reflexivity. }
  assert (Hnull : js_nullish (field (body req) "title") (JStr "") = JStr "").
  { destruct Htitle as [-> | [-> | ->]]; reflexivity. }
  unfold createProjectFile, tryCatch.
  rewrite Hor, Hnull. fold data.
  step_ask Hensure. step_ask Hunique. step_ask Hvalid.
  cbn [List.length Nat.eqb negb].
  step_call Hcreate.
  unfold send. cbn [world log sent].
  rewrite <- !app_assoc. reflexivity.
Qed.

Lemma create_without_title_uses_untitled_witness :
  createProjectFile demoEnv (requestFor "" [("title", JStr "")]) showState
    = (Ok tt,
       mkHState
         (mkWorld
            (<[projectPath "Untitled.json" := newProjectFile untitledData]>
               (files showWorld))
            (appState showWorld) (active showWorld))
         [Call (CEnsureJsonExtension (JStr "Untitled"));
          Call (CGenerateUniqueFileName projectsDirectory "Untitled.json");
          Call (CValidateProjectFiles
                  (mkProjectFiles JUndefined (JStr "Untitled.json")));
          Call (CCreateProjectFile "Untitled.json" untitledData)]
         [mkResponse 200 (FilenameBody "Untitled.json")]).
Proof.
  apply (create_without_title_uses_untitled demoEnv
           (requestFor "" [("title", JStr "")]) showState
           "Untitled.json" "Untitled.json").
  - right. right. reflexivity.
  - reflexivity.
  - vm_compute. reflexivity.
  - vm_compute. reflexivity.
  - reflexivity.
Defined.

(** C9, as stated, fails for a falsy title that is neither absent, [null]
    nor the empty string: with [title: false] the file name is still derived
    from ["Untitled"], but the stored title is [false]. *)
Lemma create_with_false_title_stores_false :
  truthy (JBool false) = false
  /\ exists st',
       createProjectFile demoEnv (requestFor "" [("title", JBool false)]) showState
         = (Ok tt, st')
       /\ sent st' = [mkResponse 200 (FilenameBody "Untitled.json")]
       /\ (fun model => jsGet (project model) "title")
            <$> files (world st') !! projectPath "Untitled.json"
          = Some (JBool false)
       /\ JBool false <> JStr "".
Proof.
  split; [reflexivity |].
  eexists. split; [vm_compute; reflexivity |].
  split; [reflexivity |]. split; [vm_compute; reflexivity | discriminate].
Qed.

(** ** Filename policy: the extension *)

Lemma endsWith_refl (s : string) : endsWith s s = true.
Proof.
  destruct s; unfold endsWith; fold endsWith; now rewrite String.eqb_refl.
Qed.

Lemma endsWith_app (s suffix : string) : endsWith (s +:+ suffix) suffix = true.
Proof.
  induction s as [| c s IH].
  - apply endsWith_refl.
  - change (String c s +:+ suffix) with (String c (s +:+ suffix)).
    unfold endsWith; fold endsWith. rewrite IH. apply orb_true_r.
Qed.

Lemma endsWith_spec (s suffix : string) :
  endsWith s suffix = true <-> exists p, s = p +:+ suffix.
Proof.
  split.
  - induction s as [| c s IH]; intros H.
    + unfold endsWith in H. rewrite orb_false_r in H.
      apply String.eqb_eq in H. now exists "".
    + unfold endsWith in H; fold endsWith in H.
      apply orb_true_iff in H as [H | H].
      * apply String.eqb_eq in H. now exists "".
      * destruct (IH H) as [p ->]. now exists (String c p).
  - intros [p ->]. apply endsWith_app.
Qed.

(** C8. [ensureExtension] is idempotent, and it appends the extension
    exactly when the name does not already end with it: a name of the form
    [p.json] is returned as it is, any other name gets [.json] appended. *)
Theorem ensureExtension_idempotent (x : string) :
  ensureExtension (ensureExtension x) = ensureExtension x
  /\ ((exists p, x = p +:+ jsonExtension) /\ ensureExtension x = x
      \/ ~ (exists p, x = p +:+ jsonExtension)
         /\ ensureExtension x = x +:+ jsonExtension).
Proof.
  destruct (endsWith x jsonExtension) eqn:Hends.
  - assert (Hsame : ensureExtension x = x)
      by (unfold ensureExtension; now rewrite Hends).
    rewrite Hsame. split; [exact Hsame |].
    left. split; [now apply endsWith_spec | reflexivity].
  - assert (Happended : ensureExtension x = x +:+ jsonExtension)
      by (unfold ensureExtension; now rewrite Hends).
    rewrite Happended. split.
    + unfold ensureExtension. now rewrite endsWith_app.
    + right. split; [| reflexivity].
      intros Hsuffix. apply endsWith_spec in Hsuffix. congruence.
Qed.

(** ** Filename policy: unique names *)

Lemma string_app_cons (c : ascii) (s t : string) :
  String c s +:+ t = String c (s +:+ t).
Proof. reflexivity. Qed.

Lemma string_length_app (s1 s2 : string) :
  String.length (s1 +:+ s2) = String.length s1 + String.length s2.
Proof. induction s1 as [| c s1 IH]; simpl; [reflexivity | now f_equal]. Qed.

Lemma string_app_inv_tail (s1 s2 t : string) : s1 +:+ t = s2 +:+ t -> s1 = s2.
Proof.
  revert s2. induction s1 as [| c s1 IH]; intros [| c' s2] H.
  - reflexivity.
  - apply (f_equal String.length) in H.
    rewrite !string_length_app in H. simpl in H. lia.
  - apply (f_equal String.length) in H.
    rewrite !string_length_app in H. simpl in H. lia.
  - injection H as -> H. f_equal. now apply IH.
Qed.

Lemma numbered_inj (baseName extension : string) :
  Inj (=) (=) (numbered baseName extension).
Proof.
  intros k k' H. unfold numbered in H.
  apply (inj (String.app baseName)) in H.
  apply (inj (String.app " (")) in H.
  apply string_app_inv_tail in H.
  now apply (inj pretty) in H.
Qed.

Lemma numbered_not_plain (baseName extension : string) (k : nat) :
  numbered baseName extension k <> baseName +:+ extension.
Proof.
  unfold numbered. intros H.
  apply (f_equal String.length) in H.
  rewrite !string_length_app in H. simpl in H. lia.
Qed.

Lemma splitExtension_app (name : string) :
  fst (splitExtension name) +:+ snd (splitExtension name) = name.
Proof.
  induction name as [| c name IH]; [reflexivity |].
  simpl splitExtension.
  destruct (splitExtension name) as [base ext]. simpl in IH.
  destruct ext as [| d ext].
  - destruct (Ascii.eqb c "."); simpl; [reflexivity |].
    rewrite string_app_cons. now rewrite IH.
  - simpl. rewrite string_app_cons. now rewrite IH.
Qed.

Lemma uniqueLoop_None (fileExists : string -> bool) (baseName extension : string)
    (fuel counter : nat) (current : string) :
  uniqueLoop fileExists baseName extension fuel counter current = None ->
  (0 < fuel -> fileExists current = true)
  /\ forall k, counter < k < counter + fuel ->
       fileExists (numbered baseName extension k) = true.
Proof.
  revert counter current.
  induction fuel as [| fuel IH]; intros counter current H; cbn in H.
  - split; intros; lia.
  - destruct (fileExists current) eqn:Hcur; [| discriminate].
    destruct (IH _ _ H) as [Hnext Hrest].
    split; [reflexivity |].
    intros k Hk. destruct (decide (k = S counter)) as [-> | Hne].
    + apply Hnext. lia.
    + apply Hrest. lia.
Qed.

Lemma uniqueLoop_Some (fileExists : string -> bool) (baseName extension : string)
    (fuel counter : nat) (current result : string) :
  uniqueLoop fileExists baseName extension fuel counter current = Some result ->
  fileExists result = false
  /\ (fileExists current = false /\ result = current
      \/ fileExists current = true
         /\ exists k, counter < k /\ result = numbered baseName extension k).
Proof.
  revert counter current.
  induction fuel as [| fuel IH]; intros counter current H; cbn in H;
    [discriminate |].
  destruct (fileExists current) eqn:Hcur.
  - destruct (IH _ _ H) as [Hfree Hshape]. split; [exact Hfree |].
    right. split; [reflexivity |].
    destruct Hshape as [[_ ->] | [_ (k & Hk & ->)]].
    + exists (S counter). split; [lia | reflexivity].
    + exists k. split; [lia | reflexivity].
  - injection H as <-. split; [exact Hcur |]. left. split; reflexivity.
Qed.

(** Pigeonhole: the names numbered 1 to [n] cannot all lie in a directory
    holding fewer than [n] entries. *)
Lemma numbered_names_bound (entries : gset string) (locate : string -> string)
    `{!Inj (=) (=) locate} (baseName extension : string) (n : nat) :
  (forall k, 0 < k <= n -> locate (numbered baseName extension k) ∈ entries) ->
  n <= size entries.
Proof.
  intros Hall.
  set (names := (fun k => locate (numbered baseName extension k)) <$> seq 1 n).
  assert (Hnodup : NoDup names).
  { apply NoDup_fmap_2; [| apply NoDup_seq].
    intros k k' Hk. apply (inj locate) in Hk.
    now apply numbered_inj in Hk. }
  assert (Hsub : list_to_set names ⊆ entries).
  { intros path Hpath. apply elem_of_list_to_set in Hpath.
    apply list_elem_of_fmap in Hpath as (k & -> & Hk).
    apply elem_of_seq in Hk. apply Hall. lia. }
  apply subseteq_size in Hsub.
  rewrite size_list_to_set in Hsub by exact Hnodup.
  unfold names in Hsub. rewrite length_fmap, length_seq in Hsub. exact Hsub.
Qed.

(** The generated name is total and fresh: for a directory listed by a
    finite set, with the number of entries as bound, a name is returned and
    it does not exist; it is the requested name when that one is free and a
    numbered variant of it otherwise. *)
Lemma generateUniqueName_fresh (fileExists : string -> bool)
    (entries : gset string) (locate : string -> string)
    `{!Inj (=) (=) locate} (bound : nat) (requestedName : string) :
  (forall name, fileExists name = true -> locate name ∈ entries) ->
  size entries <= bound ->
  exists result,
    generateUniqueName fileExists bound requestedName = Some result
    /\ fileExists result = false
    /\ (fileExists requestedName = false /\ result = requestedName
        \/ fileExists requestedName = true
           /\ exists k, 0 < k
              /\ result = numbered (fst (splitExtension requestedName))
                            (snd (splitExtension requestedName)) k).
Proof.
  intros Hlisted Hsize. unfold generateUniqueName.
  destruct (splitExtension requestedName) as [baseName extension]. cbn [fst snd].
  destruct (uniqueLoop fileExists baseName extension (S (S bound)) 0 requestedName)
    as [result |] eqn:Hloop.
  - exists result. split; [reflexivity |].
    now apply uniqueLoop_Some in Hloop.
  - exfalso. apply uniqueLoop_None in Hloop as [_ Hall].
    assert (S bound <= size entries); [| lia].
    apply (numbered_names_bound entries locate baseName extension).
    intros k Hk. apply Hlisted, Hall. lia.
Qed.

(** ** Creating under a name that is taken *)

Lemma joinPath_inj (directory : string) : Inj (=) (=) (joinPath directory).
Proof.
  intros name name' H. unfold joinPath in H.
  apply (inj (String.app directory)) in H.
  now apply (inj (String.app "/")) in H.
Qed.

Lemma pathExists_true (path : string) (w : World) :
  pathExists path w = true <-> path ∈ dom (files w).
Proof. unfold pathExists. apply bool_decide_eq_true. Qed.

Lemma pathExists_false (path : string) (w : World) :
  pathExists path w = false <-> files w !! path = None.
Proof.
  unfold pathExists. rewrite bool_decide_eq_false. apply not_elem_of_dom.
Qed.

(** The in-memory [generateUniqueFileName] never fails, and the name it
    returns is free in the directory. *)
Lemma storeUnique_fresh (directory requestedName : string) (w : World) :
  exists result,
    storeUnique directory requestedName w = Ok result
    /\ pathExists (joinPath directory result) w = false
    /\ (pathExists (joinPath directory requestedName) w = false
        /\ result = requestedName
        \/ pathExists (joinPath directory requestedName) w = true
           /\ exists k, 0 < k
              /\ result = numbered (fst (splitExtension requestedName))
                            (snd (splitExtension requestedName)) k).
Proof.
  destruct (generateUniqueName_fresh
              (fun name => pathExists (joinPath directory name) w)
              (dom (files w)) (joinPath directory) (Inj0 := joinPath_inj directory)
              (size (files w)) requestedName)
    as (result & Hgen & Hfree & Hshape).
  - intros name Hname. now apply pathExists_true.
  - now rewrite size_dom.
  - exists result. unfold storeUnique. rewrite Hgen. auto.
Qed.

(** C2. In the project store, a create request whose normalised title names
    an existing project file is answered 200 with a generated file name; the
    name is the requested one with a counter in parentheses put before the
    extension, it differs from the requested name and from the name of every
    existing project file, and after the run every file that existed has the
    content it had. *)
Theorem create_on_collision_generates_fresh_name
    (structurallyValid : DatabaseModel -> bool) (req : Request)
    (st : HState World) (original : string) :
  let data :=
    mkProjectData
      (js_nullish (field (body req) "title") (JStr ""))
      (js_nullish (field (body req) "description") (JStr ""))
      (js_nullish (field (body req) "publicUrl") (JStr ""))
      (js_nullish (field (body req) "publicInfo") (JStr ""))
      (js_nullish (field (body req) "backstageUrl") (JStr ""))
      (js_nullish (field (body req) "backstageInfo") (JStr "")) in
  storeEnsure (js_or (field (body req) "title") (JStr "Untitled")) = Ok original ->
  pathExists (projectPath original) (world st) = true ->
  exists (filename : string) (counter : nat) (after : gmap string DatabaseModel),
    0 < counter
    /\ filename = numbered (fst (splitExtension original))
                    (snd (splitExtension original)) counter
    /\ filename <> original
    /\ (forall name,
          pathExists (projectPath name) (world st) = true -> filename <> name)
    /\ createProjectFile (storeEnv structurallyValid) req st
       = (Ok tt,
          mkHState (mkWorld after (appState (world st)) (active (world st)))
            (log st ++
               [Call (CEnsureJsonExtension
                        (js_or (field (body req) "title") (JStr "Untitled")));
                Call (CGenerateUniqueFileName projectsDirectory original);
                Call (CValidateProjectFiles
                        (mkProjectFiles JUndefined (JStr filename)));
                Call (CCreateProjectFile filename data)])
            (sent st ++ [mkResponse 200 (FilenameBody filename)]))
    /\ after !! projectPath filename = Some (newProjectFile data)
    /\ (forall path content,
          files (world st) !! path = Some content -> after !! path = Some content).
Proof.
  intros data Hensure Htaken.
  destruct (storeUnique_fresh projectsDirectory original (world st))
    as (filename & Hunique & Hfree & [[Hfalse _] | [_ (k & Hk & Hname)]]).
  { unfold projectPath in Htaken. congruence. }
  exists filename, k,
    (<[projectPath filename := newProjectFile data]> (files (world st))).
  split; [exact Hk |]. split; [exact Hname |]. split; [| split; [| split; [| split]]].
  - rewrite Hname. rewrite <- (splitExtension_app original) at 3.
    apply numbered_not_plain.
  - intros name Hexists ->. unfold projectPath in Hexists. congruence.
  - unfold createProjectFile, tryCatch. fold data.
    assert (Hvalid :
      validateProjectFiles (storeEnv structurallyValid)
        (mkProjectFiles JUndefined (JStr filename)) (world st) = Ok []).
    { cbn [validateProjectFiles storeEnv]. unfold storeValidate.
      cbn [pf_filename pf_newFilename]. unfold projectPath. now rewrite Hfree. }
    assert (Hcreate :
      createProject (storeEnv structurallyValid) filename data (world st)
      = (Ok tt,
         mkWorld (<[projectPath filename := newProjectFile data]> (files (world st)))
           (appState (world st)) (active (world st)))).
    { cbn [createProject storeEnv]. unfold storeCreate, projectPath.
      now rewrite Hfree. }
    step_ask Hensure. step_ask Hunique. step_ask Hvalid.
    cbn [List.length Nat.eqb negb].
    step_call Hcreate.
    unfold send. cbn [world log sent].
    rewrite <- !app_assoc. reflexivity.
  - apply lookup_insert_eq.
  - intros path content Hpath.
    rewrite lookup_insert_ne; [exact Hpath |].
    intros <-. apply pathExists_false in Hfree.
    unfold projectPath in Hpath. congruence.
Qed.

Lemma create_on_collision_generates_fresh_name_witness :
  exists filename after,
    filename <> "Show A.json"
    /\ createProjectFile demoEnv (requestFor "" [("title", JStr "Show A")]) showState
       = (Ok tt,
          mkHState (mkWorld after (appState showWorld) (active showWorld))
            [Call (CEnsureJsonExtension (JStr "Show A"));
             Call (CGenerateUniqueFileName projectsDirectory "Show A.json");
             Call (CValidateProjectFiles
                     (mkProjectFiles JUndefined (JStr filename)));
             Call (CCreateProjectFile filename
                     (mkProjectData (JStr "Show A") (JStr "") (JStr "") (JStr "")
                        (JStr "") (JStr "")))]
            [mkResponse 200 (FilenameBody filename)])
    /\ after !! projectPath "Show A.json" = Some emptyModel.
Proof.
  destruct (create_on_collision_generates_fresh_name acceptAll
              (requestFor "" [("title", JStr "Show A")]) showState "Show A.json")
    as (filename & counter & after & _ & _ & Hother & _ & Hrun & _ & Hkept).
  - reflexivity.
  - vm_compute. reflexivity.
  - exists filename, after. split; [exact Hother |]. split; [exact Hrun |].
    apply Hkept. vm_compute. reflexivity.
Defined.

(** The scenario of the spec: "Show A" is created while "Show A.json"
    exists. *)
Example create_show_a_scenario :
  createProjectFile demoEnv (requestFor "" [("title", JStr "Show A")]) showState
    = (Ok tt,
       mkHState
         (mkWorld
            (<[projectPath "Show A (1).json" :=
                 newProjectFile
                   (mkProjectData (JStr "Show A") (JStr "") (JStr "") (JStr "")
                      (JStr "") (JStr ""))]> (files showWorld))
            (appState showWorld) (active showWorld))
         [Call (CEnsureJsonExtension (JStr "Show A"));
          Call (CGenerateUniqueFileName projectsDirectory "Show A.json");
          Call (CValidateProjectFiles
                  (mkProjectFiles JUndefined (JStr "Show A (1).json")));
          Call (CCreateProjectFile "Show A (1).json"
                  (mkProjectData (JStr "Show A") (JStr "") (JStr "") (JStr "")
                     (JStr "") (JStr "")))]
         [mkResponse 200 (FilenameBody "Show A (1).json")]).
Proof. vm_compute. reflexivity. Qed.

(** ** Node's [path.join] *)












Example pathJoin_examples :
  pathJoin "/ontime/db" "Show A.json" = "/ontime/db/Show A.json"
  /\ pathJoin "/ontime/db" "../projects/Show B.json" = "/ontime/projects/Show B.json"
  /\ pathJoin "/ontime/db" "" = "/ontime/db"
  /\ pathJoin "" "" = "."
  /\ pathJoin "a" ".." = "."
  /\ pathJoin "/a/" "b/" = "/a/b/"
  /\ pathJoin "/" ".." = "/"
  /\ pathJoin ".." ".." = "../.."
  /\ pathJoin "a//b" "./c" = "a/b/c".
Proof. repeat split; vm_compute; reflexivity. Qed.


(** ** Where downloads are looked up *)




(** * Further properties of the handlers *)

Lemma newEvents_app {W} (st : HState W) (w : W) (events : list Event)
    (responses : list Response) :
  newEvents st (mkHState w (log st ++ events) responses) = events.
Proof. unfold newEvents. cbn [log]. apply drop_app_length. Qed.

Lemma newEvents_same {W} (st : HState W) (w : W) (responses : list Response) :
  newEvents st (mkHState w (log st) responses) = [].
Proof. unfold newEvents. cbn [log]. apply drop_all. Qed.

Lemma newResponses_app {W} (st : HState W) (w : W) (events : list Event)
    (responses : list Response) :
  newResponses st (mkHState w events (sent st ++ responses)) = responses.
Proof. unfold newResponses. cbn [sent]. apply drop_app_length. Qed.

Lemma newResponses_same {W} (st : HState W) (w : W) (events : list Event) :
  newResponses st (mkHState w events (sent st)) = [].
Proof. unfold newResponses. cbn [sent]. apply drop_all. Qed.

Lemma length_test_nil {A} (l : list A) :
  negb (Nat.eqb (List.length l) 0) = false -> l = [].
Proof. destruct l; [reflexivity | discriminate]. Qed.

Lemma length_test_cons {A} (l : list A) :
  negb (Nat.eqb (List.length l) 0) = true -> l <> [].
Proof. destruct l; [discriminate | intros _; discriminate]. Qed.

Ltac observe :=
  cbn [world log sent fst snd negb] in *;
  rewrite <- ?app_assoc in *; cbn [app] in *;
  rewrite ?newEvents_app, ?newEvents_same, ?newResponses_app,
    ?newResponses_same in *.

Ltac among H :=
  repeat (apply elem_of_cons in H as [H | H];
          [first [discriminate H | injection H as ? | idtac] |]);
  try (apply elem_of_nil in H; destruct H).

(** ** Delete *)

(** The delete operation of the project service is reached only through the
    two checks: when a run of the delete handler calls it, the argument is
    the file named by the request, the state lookup succeeded with another
    [lastLoadedProject], and the validation of that file returned no
    error. *)
Theorem delete_only_after_checks {W} (env : Env W) (req : Request)
    (st : HState W) (name : string) :
  Call (CDeleteProjectFile name)
    ∈ newEvents st (snd (deleteProjectFile env req st)) ->
  name = params_filename req
  /\ exists state,
       appStateGet env (world st) = Ok state
       /\ lastLoadedProject state <> Some name
       /\ validateProjectFiles env (mkProjectFiles (JStr name) JUndefined) (world st)
          = Ok [].
Proof.
  unfold deleteProjectFile, tryCatch, bind, ask, call, send, getErrorMessage.
  destruct (appStateGet env (world st)) as [state | e1] eqn:Hget; observe;
    [| intros H; among H].
  destruct (bool_decide (lastLoadedProject state = Some (params_filename req)))
    eqn:Hloaded; observe; [intros H; among H |].
  apply bool_decide_eq_false in Hloaded.
  destruct (validateProjectFiles env _ (world st)) as [errors | e2] eqn:Hval;
    observe; [| intros H; among H].
  destruct (negb (Nat.eqb (List.length errors) 0)) eqn:Hlen; observe;
    [intros H; among H |].
  apply length_test_nil in Hlen. subst errors.
  destruct (deleteProject env _ (world st)) as [[[] | e3] w3]; observe;
    intros H; among H; subst name; eauto.
Qed.

Lemma delete_only_after_checks_witness :
  exists state,
    appStateGet demoEnv showWorld = Ok state
    /\ lastLoadedProject state <> Some "Show B.json"
    /\ validateProjectFiles demoEnv
         (mkProjectFiles (JStr "Show B.json") JUndefined) showWorld = Ok [].
Proof.
  apply (delete_only_after_checks demoEnv (requestFor "Show B.json" [])
           showState "Show B.json").
  vm_compute. do 2 apply list_elem_of_further. apply list_elem_of_here.
Defined.

(** A file that is not the loaded project and fails validation is answered
    409 with the validation errors joined by a comma; the state lookup and
    the validation are the only service calls, so nothing is deleted. *)
Theorem delete_validation_conflict {W} (env : Env W) (req : Request)
    (st : HState W) (state : AppState) (errors : list string) :
  let checked := mkProjectFiles (JStr (params_filename req)) JUndefined in
  appStateGet env (world st) = Ok state ->
  lastLoadedProject state <> Some (params_filename req) ->
  validateProjectFiles env checked (world st) = Ok errors ->
  errors <> [] ->
  deleteProjectFile env req st
    = (Ok tt,
       mkHState (world st)
         (log st ++ [Call CAppStateGet; Call (CValidateProjectFiles checked)])
         (sent st ++ [mkResponse 409 (Message (String.concat ", " errors))])).
Proof.
  intros checked Hget Hother Hval Hne.
  unfold deleteProjectFile, tryCatch.
  step_ask Hget.
  rewrite bool_decide_eq_false_2 by exact Hother.
  step_ask Hval.
  rewrite (nonempty_length_test errors Hne).
  unfold send. observe. reflexivity.
Qed.

Lemma delete_validation_conflict_witness :
  deleteProjectFile demoEnv (requestFor "Nowhere.json" []) showState
    = (Ok tt,
       mkHState showWorld
         [Call CAppStateGet;
          Call (CValidateProjectFiles
                  (mkProjectFiles (JStr "Nowhere.json") JUndefined))]
         [mkResponse 409 (Message "Project file does not exist")]).
Proof.
  apply (delete_validation_conflict demoEnv (requestFor "Nowhere.json" [])
           showState (mkAppState (Some "Show A.json"))
           ["Project file does not exist"]).
  - reflexivity.
  - discriminate.
  - vm_compute. reflexivity.
  - discriminate.
Defined.

(** What the answer of the delete handler says about the effect: a 204 is
    sent only when the delete operation ran on the starting state and
    succeeded, and the final state is the one it produced; after a 403 or a
    409 the state is the starting one and the delete operation was not
    called. *)
Theorem delete_answer_reflects_effect {W} (env : Env W) (req : Request)
    (st : HState W) (r : Response) :
  r ∈ newResponses st (snd (deleteProjectFile env req st)) ->
  (status r = 204 ->
     deleteProject env (params_filename req) (world st)
       = (Ok tt, world (snd (deleteProjectFile env req st)))
     /\ payload r = Message ("Deleted project " +:+ params_filename req))
  /\ (status r = 403 \/ status r = 409 ->
        world (snd (deleteProjectFile env req st)) = world st
        /\ forall name,
             Call (CDeleteProjectFile name)
               ∉ newEvents st (snd (deleteProjectFile env req st))).
Proof.
  unfold deleteProjectFile, tryCatch, bind, ask, call, send, getErrorMessage.
  destruct (appStateGet env (world st)) as [state | e1]; observe.
  2: { intros H. apply list_elem_of_singleton in H. subst r. cbn [status].
       split; [discriminate | intros [|]; discriminate]. }
  destruct (bool_decide (lastLoadedProject state = Some (params_filename req)));
    observe.
  { intros H. apply list_elem_of_singleton in H. subst r. cbn [status].
    split; [discriminate | intros _]. split; [reflexivity |].
    intros name Hin. among Hin. }
  destruct (validateProjectFiles env _ (world st)) as [errors | e2]; observe.
  2: { intros H. apply list_elem_of_singleton in H. subst r. cbn [status].
       split; [discriminate | intros [|]; discriminate]. }
  destruct (negb (Nat.eqb (List.length errors) 0)); observe.
  { intros H. apply list_elem_of_singleton in H. subst r. cbn [status].
    split; [discriminate | intros _]. split; [reflexivity |].
    intros name Hin. among Hin. }
  destruct (deleteProject env _ (world st)) as [[[] | e3] w3]; observe;
    intros H; apply list_elem_of_singleton in H; subst r; cbn [status payload].
  - split; [intros _; split; reflexivity | intros [|]; discriminate].
  - split; [discriminate | intros [|]; discriminate].
Qed.

Lemma delete_answer_reflects_effect_witness :
  deleteProject demoEnv "Show B.json" showWorld
    = (Ok tt,
       world (snd (deleteProjectFile demoEnv (requestFor "Show B.json" []) showState)))
  /\ world (snd (deleteProjectFile demoEnv (requestFor "Show A.json" []) showState))
     = showWorld.
Proof.
  split.
  - apply (delete_answer_reflects_effect demoEnv (requestFor "Show B.json" [])
             showState (mkResponse 204 (Message "Deleted project Show B.json"))).
    + vm_compute. apply list_elem_of_here.
    + reflexivity.
  - apply (delete_answer_reflects_effect demoEnv (requestFor "Show A.json" [])
             showState
             (mkResponse 403 (Message "Cannot delete currently loaded project"))).
    + vm_compute. apply list_elem_of_here.
    + left. reflexivity.
Defined.

(** ** Rename and duplicate *)

Ltac single H r :=
  apply list_elem_of_singleton in H; subst r; cbn [status payload].

(** The rename and duplicate operations of the project service are reached
    only through validation: when a run calls one of them, the arguments are
    the file named in the route and the [newFilename] of the body, and the
    validation of that pair returned no error. *)
Theorem rename_duplicate_only_after_validation {W} (env : Env W) (req : Request)
    (st : HState W) (name : string) (target : JSVal) :
  Call (CRenameProjectFile name target)
    ∈ newEvents st (snd (renameProjectFile env req st))
  \/ Call (CDuplicateProjectFile name target)
       ∈ newEvents st (snd (duplicateProjectFile env req st)) ->
  name = params_filename req
  /\ target = field (body req) "newFilename"
  /\ validateProjectFiles env (mkProjectFiles (JStr name) target) (world st) = Ok [].
Proof.
  intros [H | H]; revert H;
    unfold renameProjectFile, duplicateProjectFile, tryCatch, bind, ask, call,
      send, getErrorMessage;
    (destruct (validateProjectFiles env _ (world st)) as [errors | e1] eqn:Hval;
     observe; [| intros H; among H]);
    (destruct (negb (Nat.eqb (List.length errors) 0)) eqn:Hlen; observe;
     [intros H; among H |]);
    apply length_test_nil in Hlen; subst errors.
  - destruct (renameProject env _ _ (world st)) as [[[] | e2] w2]; observe;
      intros H; among H; subst; auto.
  - destruct (duplicateProject env _ _ (world st)) as [[[] | e2] w2]; observe;
      intros H; among H; subst; auto.
Qed.

Lemma rename_duplicate_only_after_validation_witness :
  validateProjectFiles demoEnv
    (mkProjectFiles (JStr "Show B.json") (JStr "Show C.json")) showWorld = Ok [].
Proof.
  apply (rename_duplicate_only_after_validation demoEnv
           (requestFor "Show B.json" [("newFilename", JStr "Show C.json")])
           showState "Show B.json" (JStr "Show C.json")).
  left. vm_compute. apply list_elem_of_further. apply list_elem_of_here.
Defined.

(** What the answer of the rename handler says about the effect: a 201 is
    sent only when the rename operation ran on the starting state and
    succeeded, and the final state is the one it produced; after a 409 the
    state is the starting one and the operation was not called. *)
Theorem rename_answer_reflects_effect {W} (env : Env W) (req : Request)
    (st : HState W) (r : Response) :
  r ∈ newResponses st (snd (renameProjectFile env req st)) ->
  (status r = 201 ->
     renameProject env (params_filename req) (field (body req) "newFilename")
       (world st)
     = (Ok tt, world (snd (renameProjectFile env req st))))
  /\ (status r = 409 ->
        world (snd (renameProjectFile env req st)) = world st
        /\ forall name target,
             Call (CRenameProjectFile name target)
               ∉ newEvents st (snd (renameProjectFile env req st))).
Proof.
  unfold renameProjectFile, tryCatch, bind, ask, call, send, getErrorMessage.
  destruct (validateProjectFiles env _ (world st)) as [errors | e1]; observe.
  2: { intros H. single H r. split; discriminate. }
  destruct (negb (Nat.eqb (List.length errors) 0)); observe.
  { intros H. single H r. split; [discriminate | intros _].
    split; [reflexivity |]. intros name target Hin. among Hin. }
  destruct (renameProject env _ _ (world st)) as [[[] | e2] w2]; observe;
    intros H; single H r.
  - split; [intros _; reflexivity | discriminate].
  - split; discriminate.
Qed.

Lemma rename_answer_reflects_effect_witness :
  renameProject demoEnv "Show B.json" (JStr "Show C.json") showWorld
    = (Ok tt,
       world (snd (renameProjectFile demoEnv
                     (requestFor "Show B.json" [("newFilename", JStr "Show C.json")])
                     showState))).
Proof.
  apply (rename_answer_reflects_effect demoEnv
           (requestFor "Show B.json" [("newFilename", JStr "Show C.json")])
           showState
           (mkResponse 201 (Message "Renamed project Show B.json to Show C.json"))).
  - vm_compute. apply list_elem_of_here.
  - reflexivity.
Defined.

(** The same for the duplicate handler. *)
Theorem duplicate_answer_reflects_effect {W} (env : Env W) (req : Request)
    (st : HState W) (r : Response) :
  r ∈ newResponses st (snd (duplicateProjectFile env req st)) ->
  (status r = 201 ->
     duplicateProject env (params_filename req) (field (body req) "newFilename")
       (world st)
     = (Ok tt, world (snd (duplicateProjectFile env req st))))
  /\ (status r = 409 ->
        world (snd (duplicateProjectFile env req st)) = world st
        /\ forall name target,
             Call (CDuplicateProjectFile name target)
               ∉ newEvents st (snd (duplicateProjectFile env req st))).
Proof.
  unfold duplicateProjectFile, tryCatch, bind, ask, call, send, getErrorMessage.
  destruct (validateProjectFiles env _ (world st)) as [errors | e1]; observe.
  2: { intros H. single H r. split; discriminate. }
  destruct (negb (Nat.eqb (List.length errors) 0)); observe.
  { intros H. single H r. split; [discriminate | intros _].
    split; [reflexivity |]. intros name target Hin. among Hin. }
  destruct (duplicateProject env _ _ (world st)) as [[[] | e2] w2]; observe;
    intros H; single H r.
  - split; [intros _; reflexivity | discriminate].
  - split; discriminate.
Qed.

Lemma duplicate_answer_reflects_effect_witness :
  duplicateProject demoEnv "Show B.json" (JStr "Show C.json") showWorld
    = (Ok tt,
       world (snd (duplicateProjectFile demoEnv
                     (requestFor "Show B.json" [("newFilename", JStr "Show C.json")])
                     showState))).
Proof.
  apply (duplicate_answer_reflects_effect demoEnv
           (requestFor "Show B.json" [("newFilename", JStr "Show C.json")])
           showState
           (mkResponse 201
              (Message "Duplicated project Show B.json to Show C.json"))).
  - vm_compute. apply list_elem_of_here.
  - reflexivity.
Defined.

(** ** Create *)

Lemma js_nullish_default (v : JSVal) : nullish (js_nullish v (JStr "")) = false.
Proof. destruct v; reflexivity. Qed.

Lemma create_call_inversion {W} (env : Env W) (req : Request) (st : HState W)
    (filename : string) (data : ProjectData) :
  Call (CCreateProjectFile filename data)
    ∈ newEvents st (snd (createProjectFile env req st)) ->
  data = projectDataOf (body req)
  /\ exists originalFilename,
       ensureJsonExtension env (js_or (field (body req) "title") (JStr "Untitled"))
         = Ok originalFilename
       /\ generateUniqueFileName env (resolveProjectsDirectory env)
            originalFilename (world st) = Ok filename
       /\ validateProjectFiles env (mkProjectFiles JUndefined (JStr filename))
            (world st) = Ok [].
Proof.
  unfold createProjectFile, tryCatch, bind, ask, call, send, getErrorMessage.
  destruct (ensureJsonExtension env _) as [originalFilename | e1] eqn:Hensure;
    observe; [| intros H; among H].
  destruct (generateUniqueFileName env _ originalFilename (world st))
    as [generated | e2] eqn:Hunique; observe; [| intros H; among H].
  destruct (validateProjectFiles env _ (world st)) as [errors | e3] eqn:Hval;
    observe; [| intros H; among H].
  destruct (negb (Nat.eqb (List.length errors) 0)) eqn:Hlen; observe;
    [intros H; among H |].
  apply length_test_nil in Hlen. subst errors.
  destruct (createProject env generated _ (world st)) as [[[] | e4] w4]; observe;
    intros H; among H; subst; split; eauto.
Qed.

(** The create operation of the project service is reached only with the
    name that [generateUniqueFileName] returned for the projects directory
    and the normalised title (or "Untitled"), after the validation of that
    name returned no error. *)
Theorem create_only_generated_validated_name {W} (env : Env W) (req : Request)
    (st : HState W) (filename : string) (data : ProjectData) :
  Call (CCreateProjectFile filename data)
    ∈ newEvents st (snd (createProjectFile env req st)) ->
  exists originalFilename,
    ensureJsonExtension env (js_or (field (body req) "title") (JStr "Untitled"))
      = Ok originalFilename
    /\ generateUniqueFileName env (resolveProjectsDirectory env)
         originalFilename (world st) = Ok filename
    /\ validateProjectFiles env (mkProjectFiles JUndefined (JStr filename))
         (world st) = Ok [].
Proof. intros H. now apply create_call_inversion in H as [_ H]. Qed.

Lemma create_only_generated_validated_name_witness :
  exists originalFilename,
    ensureJsonExtension demoEnv (JStr "Show A") = Ok originalFilename
    /\ generateUniqueFileName demoEnv projectsDirectory originalFilename showWorld
       = Ok "Show A (1).json"
    /\ validateProjectFiles demoEnv
         (mkProjectFiles JUndefined (JStr "Show A (1).json")) showWorld = Ok [].
Proof.
  apply (create_only_generated_validated_name demoEnv
           (requestFor "" [("title", JStr "Show A")]) showState
           "Show A (1).json"
           (projectDataOf (body (requestFor "" [("title", JStr "Show A")])))).
  vm_compute. do 3 apply list_elem_of_further. apply list_elem_of_here.
Defined.

(** The project data handed to the create operation never holds [undefined]
    or [null]: each of its six fields is the value of the body when that is
    neither, and the empty string otherwise. *)
Theorem create_data_has_no_null {W} (env : Env W) (req : Request)
    (st : HState W) (filename : string) (data : ProjectData) :
  Call (CCreateProjectFile filename data)
    ∈ newEvents st (snd (createProjectFile env req st)) ->
  Forall (fun v => nullish v = false) (projectDataFields data)
  /\ Forall2
       (fun key v =>
          v = if nullish (field (body req) key) then JStr ""
              else field (body req) key)
       ["title"; "description"; "publicUrl"; "publicInfo"; "backstageUrl";
        "backstageInfo"]
       (projectDataFields data).
Proof.
  intros H. apply create_call_inversion in H as [-> _].
  unfold projectDataOf, projectDataFields.
  cbn [title description publicUrl publicInfo backstageUrl backstageInfo].
  split.
  - repeat (apply Forall_cons_2; [apply js_nullish_default |]).
    apply Forall_nil_2.
  - repeat (apply Forall2_cons_2;
            [destruct (field (body req) _); reflexivity |]).
    apply Forall2_nil_2.
Qed.

Lemma create_data_has_no_null_witness :
  Forall (fun v => nullish v = false)
    (projectDataFields
       (projectDataOf
          (body (requestFor "" [("title", JStr "Show A"); ("description", JNull)])))).
Proof.
  apply (create_data_has_no_null demoEnv
           (requestFor "" [("title", JStr "Show A"); ("description", JNull)])
           showState "Show A (1).json"
           (projectDataOf
              (body (requestFor "" [("title", JStr "Show A"); ("description", JNull)])))).
  vm_compute. do 3 apply list_elem_of_further. apply list_elem_of_here.
Defined.

(** What the answer of the create handler says: a 200 carries the name
    with which the handler called the create operation (the call is not
    awaited, so nothing is said about its outcome); a 409 has the fixed
    message, leaves the state as it was and comes without a call of the
    create operation. *)
Theorem create_answer_names_called_file {W} (env : Env W) (req : Request)
    (st : HState W) (r : Response) :
  r ∈ newResponses st (snd (createProjectFile env req st)) ->
  (status r = 200 ->
     exists filename,
       payload r = FilenameBody filename
       /\ Call (CCreateProjectFile filename (projectDataOf (body req)))
            ∈ newEvents st (snd (createProjectFile env req st)))
  /\ (status r = 409 ->
        payload r = Message "Project with title already exists"
        /\ world (snd (createProjectFile env req st)) = world st
        /\ forall filename data,
             Call (CCreateProjectFile filename data)
               ∉ newEvents st (snd (createProjectFile env req st))).
Proof.
  unfold createProjectFile, tryCatch, bind, ask, call, send, getErrorMessage.
  destruct (ensureJsonExtension env _) as [originalFilename | e1]; observe.
  2: { intros H. single H r. split; discriminate. }
  destruct (generateUniqueFileName env _ originalFilename (world st))
    as [generated | e2]; observe.
  2: { intros H. single H r. split; discriminate. }
  destruct (validateProjectFiles env _ (world st)) as [errors | e3]; observe.
  2: { intros H. single H r. split; discriminate. }
  destruct (negb (Nat.eqb (List.length errors) 0)); observe.
  { intros H. single H r. split; [discriminate | intros _].
    split; [reflexivity |]. split; [reflexivity |].
    intros filename data Hin. among Hin. }
  destruct (createProject env generated _ (world st)) as [[[] | e4] w4];
    observe; intros H; single H r.
  - split; [intros _ | discriminate]. exists generated. split; [reflexivity |].
    do 3 apply list_elem_of_further. apply list_elem_of_here.
  - split; discriminate.
Qed.

Lemma create_answer_names_called_file_witness :
  exists filename,
    FilenameBody "Show A (1).json" = FilenameBody filename
    /\ Call (CCreateProjectFile filename
               (projectDataOf (body (requestFor "" [("title", JStr "Show A")]))))
         ∈ newEvents showState
             (snd (createProjectFile demoEnv
                     (requestFor "" [("title", JStr "Show A")]) showState)).
Proof.
  apply (create_answer_names_called_file demoEnv
           (requestFor "" [("title", JStr "Show A")]) showState
           (mkResponse 200 (FilenameBody "Show A (1).json"))).
  - vm_compute. apply list_elem_of_here.
  - reflexivity.
Defined.

(** ** Load *)

(** [applyProjectFile] is reached by the load handler only for a name for
    which [doesProjectExist] answered true; it is called with the [filename]
    of the body and without options. *)
Theorem load_applies_only_existing {W} (env : Env W) (req : Request)
    (st : HState W) (name options : JSVal) :
  Call (CApplyProjectFile name options)
    ∈ newEvents st (snd (loadProject env req st)) ->
  name = field (body req) "filename"
  /\ options = JUndefined
  /\ doesProjectExist env name (world st) = Ok true.
Proof.
  unfold loadProject, tryCatch, bind, ask, call, send, getErrorMessage.
  destruct (doesProjectExist env _ (world st)) as [[|] | e1] eqn:Hexists;
    observe; [| intros H; among H | intros H; among H].
  destruct (applyProjectFile env _ _ (world st)) as [[[] | e2] w2]; observe;
    intros H; among H; subst; auto.
Qed.

Lemma load_applies_only_existing_witness :
  doesProjectExist demoEnv (JStr "Show B.json") showWorld = Ok true.
Proof.
  apply (load_applies_only_existing demoEnv
           (requestFor "" [("filename", JStr "Show B.json")]) showState
           (JStr "Show B.json") JUndefined).
  vm_compute. apply list_elem_of_further. apply list_elem_of_here.
Defined.

(** What the answer of the load handler says about the effect: a 201 is sent
    only when [applyProjectFile] ran on the starting state and succeeded,
    and the final state is the one it produced; for a file name that is a
    string the message is "Loaded project" followed by that name; after a
    404 the state is the starting one and [applyProjectFile] was not
    called. *)
Theorem load_answer_reflects_effect {W} (env : Env W) (req : Request)
    (st : HState W) (r : Response) :
  r ∈ newResponses st (snd (loadProject env req st)) ->
  (status r = 201 ->
     applyProjectFile env (field (body req) "filename") JUndefined (world st)
       = (Ok tt, world (snd (loadProject env req st)))
     /\ forall name,
          field (body req) "filename" = JStr name ->
          payload r = Message ("Loaded project " +:+ name))
  /\ (status r = 404 ->
        world (snd (loadProject env req st)) = world st
        /\ forall name options,
             Call (CApplyProjectFile name options)
               ∉ newEvents st (snd (loadProject env req st))).
Proof.
  unfold loadProject, tryCatch, bind, ask, call, send, getErrorMessage.
  destruct (doesProjectExist env _ (world st)) as [[|] | e1]; observe.
  - destruct (applyProjectFile env _ _ (world st)) as [[[] | e2] w2]; observe;
      intros H; single H r.
    + split; [intros _ | discriminate]. split; [reflexivity |].
      intros name ->. reflexivity.
    + split; discriminate.
  - intros H. single H r. split; [discriminate | intros _].
    split; [reflexivity |]. intros name options Hin. among Hin.
  - intros H. single H r. split; discriminate.
Qed.

Lemma load_answer_reflects_effect_witness :
  applyProjectFile demoEnv (JStr "Show B.json") JUndefined showWorld
    = (Ok tt,
       world (snd (loadProject demoEnv
                     (requestFor "" [("filename", JStr "Show B.json")]) showState)))
  /\ lastLoadedProject
       (appState
          (world (snd (loadProject demoEnv
                         (requestFor "" [("filename", JStr "Show B.json")])
                         showState))))
     = Some "Show B.json".
Proof.
  split; [| vm_compute; reflexivity].
  apply (load_answer_reflects_effect demoEnv
           (requestFor "" [("filename", JStr "Show B.json")]) showState
           (mkResponse 201 (Message "Loaded project Show B.json"))).
  - vm_compute. apply list_elem_of_here.
  - reflexivity.
Defined.

(** ** Upload *)

(** [applyProjectFile] is reached by the upload handler only after
    [handleUploadedFile] succeeded for the uploaded file; it is called with
    the name of that file and the query of the request as options. *)
Theorem upload_applies_only_after_handling {W} (env : Env W) (req : Request)
    (st : HState W) (name options : JSVal) :
  Call (CApplyProjectFile name options)
    ∈ newEvents st (snd (postProjectFile env req st)) ->
  exists f w1,
    file req = Some f
    /\ name = JStr (file_filename f)
    /\ options = query req
    /\ handleUploadedFile env (file_path f) (file_filename f) (world st)
       = (Ok tt, w1).
Proof.
  unfold postProjectFile, tryCatch, bind, call, send, getErrorMessage.
  destruct (file req) as [f |]; [| observe; intros H; among H].
  destruct (handleUploadedFile env _ _ (world st)) as [[[] | e1] w1] eqn:Hhandle;
    observe; [| intros H; among H].
  destruct (applyProjectFile env _ _ w1) as [[[] | e2] w2]; observe;
    intros H; among H; subst; eauto 10.
Qed.

Lemma upload_applies_only_after_handling_witness :
  exists f w1,
    file uploadRequest = Some f
    /\ JStr "Show C.json" = JStr (file_filename f)
    /\ JObj [] = query uploadRequest
    /\ handleUploadedFile demoEnv (file_path f) (file_filename f) uploadWorld
       = (Ok tt, w1).
Proof.
  apply (upload_applies_only_after_handling demoEnv uploadRequest uploadState
           (JStr "Show C.json") (JObj [])).
  vm_compute. apply list_elem_of_further. apply list_elem_of_here.
Defined.

(** A failure of [applyProjectFile] does not undo the upload: when
    [handleUploadedFile] succeeded and [applyProjectFile] then throws, the
    answer is 400 with the error's message and the final state is the one
    the two calls left, the handled file included. *)
Theorem upload_failed_apply_keeps_handled_file {W} (env : Env W) (req : Request)
    (st : HState W) (f : UploadedFile) (w1 w2 : W) (error : string) :
  file req = Some f ->
  handleUploadedFile env (file_path f) (file_filename f) (world st) = (Ok tt, w1) ->
  applyProjectFile env (JStr (file_filename f)) (query req) w1 = (Throw error, w2) ->
  postProjectFile env req st
    = (Ok tt,
       mkHState w2
         (log st ++
            [Call (CHandleUploadedFile (file_path f) (file_filename f));
             Call (CApplyProjectFile (JStr (file_filename f)) (query req));
             Raise error])
         (sent st ++ [mkResponse 400 (Message error)])).
Proof.
  intros Hfile Hhandle Happly.
  unfold postProjectFile, tryCatch, bind, call, send, getErrorMessage.
  rewrite Hfile, Hhandle. observe. rewrite Happly. observe. reflexivity.
Qed.

Lemma upload_failed_apply_keeps_handled_file_witness :
  exists w2,
    postProjectFile (storeEnv rejectAll) uploadRequest uploadState
      = (Ok tt,
         mkHState w2
           [Call (CHandleUploadedFile "/tmp/upload-1" "Show C.json");
            Call (CApplyProjectFile (JStr "Show C.json") (JObj []));
            Raise "ValidationError"]
           [mkResponse 400 (Message "ValidationError")])
    /\ files w2 !! projectPath "Show C.json" = Some emptyModel
    /\ lastLoadedProject (appState w2) = Some "Show A.json".
Proof.
  eexists. split; [| split].
  - eapply (upload_failed_apply_keeps_handled_file (storeEnv rejectAll)
              uploadRequest uploadState
              (mkUploadedFile "Show C.json" "/tmp/upload-1")).
    + reflexivity.
    + vm_compute. reflexivity.
    + vm_compute. reflexivity.
  - vm_compute. reflexivity.
  - reflexivity.
Defined.

(** What a 201 of the upload handler says: [handleUploadedFile] succeeded on
    the starting state, [applyProjectFile] succeeded on the state it left,
    and the final state is the one [applyProjectFile] produced. *)
Theorem upload_answer_reflects_effect {W} (env : Env W) (req : Request)
    (st : HState W) (r : Response) :
  r ∈ newResponses st (snd (postProjectFile env req st)) ->
  status r = 201 ->
  exists f w1,
    file req = Some f
    /\ handleUploadedFile env (file_path f) (file_filename f) (world st)
       = (Ok tt, w1)
    /\ applyProjectFile env (JStr (file_filename f)) (query req) w1
       = (Ok tt, world (snd (postProjectFile env req st)))
    /\ payload r = Message ("Loaded project " +:+ file_filename f).
Proof.
  unfold postProjectFile, tryCatch, bind, call, send, getErrorMessage.
  destruct (file req) as [f |];
    [| observe; intros H; single H r; discriminate].
  destruct (handleUploadedFile env _ _ (world st)) as [[[] | e1] w1] eqn:Hhandle;
    observe; [| intros H; single H r; discriminate].
  destruct (applyProjectFile env _ _ w1) as [[[] | e2] w2] eqn:Happly; observe;
    intros H; single H r; [intros _ | discriminate].
  exists f, w1. auto.
Qed.

Lemma upload_answer_reflects_effect_witness :
  exists f w1,
    file uploadRequest = Some f
    /\ handleUploadedFile demoEnv (file_path f) (file_filename f) uploadWorld
       = (Ok tt, w1)
    /\ applyProjectFile demoEnv (JStr (file_filename f)) (query uploadRequest) w1
       = (Ok tt, world (snd (postProjectFile demoEnv uploadRequest uploadState)))
    /\ Message "Loaded project Show C.json"
       = Message ("Loaded project " +:+ file_filename f).
Proof.
  apply (upload_answer_reflects_effect demoEnv uploadRequest uploadState
           (mkResponse 201 (Message "Loaded project Show C.json"))).
  - vm_compute. apply list_elem_of_here.
  - reflexivity.
Defined.

(** ** Patch *)

Lemma patchOf_agree (b1 b2 : gmap string JSVal) :
  Forall (fun key => field b1 key = field b2 key) patchFields ->
  patchOf b1 = patchOf b2.
Proof.
  unfold patchFields. intros H.
  repeat (apply Forall_cons in H as [? H]).
  unfold patchOf. congruence.
Qed.

(** Only the eight fields of a [DatabaseModel] are read from the body of a
    patch request: two requests with non-empty bodies that agree on these
    fields are handled in the same way, whatever else the bodies hold. *)
Theorem patch_ignores_unknown_fields {W} (env : Env W) (req1 req2 : Request)
    (st : HState W) :
  body req1 <> ∅ ->
  body req2 <> ∅ ->
  Forall (fun key => field (body req1) key = field (body req2) key) patchFields ->
  patchPartialProjectFile env req1 st = patchPartialProjectFile env req2 st.
Proof.
  intros Hne1 Hne2 Hagree. apply patchOf_agree in Hagree.
  unfold patchPartialProjectFile, failEmptyObjects.
  rewrite !bool_decide_eq_false_2 by assumption.
  fold (patchOf (body req1)). fold (patchOf (body req2)).
  now rewrite Hagree.
Qed.

Lemma patch_ignores_unknown_fields_witness :
  patchPartialProjectFile demoEnv
    (requestFor "" [("settings", JObj []); ("colour", JStr "red")]) showState
  = patchPartialProjectFile demoEnv
      (requestFor "" [("settings", JObj []); ("lang", JStr "en"); ("x", JNull)])
      showState.
Proof.
  apply (patch_ignores_unknown_fields demoEnv
           (requestFor "" [("settings", JObj []); ("colour", JStr "red")])
           (requestFor "" [("settings", JObj []); ("lang", JStr "en"); ("x", JNull)])
           showState).
  - intros Hempty.
    apply (f_equal (fun b : gmap string JSVal => b !! "settings")) in Hempty.
    vm_compute in Hempty. discriminate Hempty.
  - intros Hempty.
    apply (f_equal (fun b : gmap string JSVal => b !! "settings")) in Hempty.
    vm_compute in Hempty. discriminate Hempty.
  - unfold patchFields.
    repeat (apply Forall_cons_2; [vm_compute; reflexivity |]).
    apply Forall_nil_2.
Defined.

(** [applyDataModel] is reached only for a body that is not empty, with the
    patch made of the eight fields read from it; and a 200 is sent only when
    that call succeeded: it carries the model the call returned, and the
    final state is the one the call produced. *)
Theorem patch_answer_reflects_effect {W} (env : Env W) (req : Request)
    (st : HState W) :
  (forall patchDb,
     Call (CApplyDataModel patchDb)
       ∈ newEvents st (snd (patchPartialProjectFile env req st)) ->
     body req <> ∅ /\ patchDb = patchOf (body req))
  /\ (forall r,
        r ∈ newResponses st (snd (patchPartialProjectFile env req st)) ->
        status r = 200 ->
        exists newData,
          payload r = ModelBody newData
          /\ applyDataModel env (patchOf (body req)) (world st)
             = (Ok newData, world (snd (patchPartialProjectFile env req st)))).
Proof.
  unfold patchPartialProjectFile, failEmptyObjects.
  fold (patchOf (body req)).
  destruct (bool_decide (body req = ∅)) eqn:Hempty.
  - unfold send. observe. split.
    + intros patchDb H. among H.
    + intros r H. single H r. discriminate.
  - apply bool_decide_eq_false in Hempty.
    unfold tryCatch, bind, call, send, getErrorMessage.
    destruct (applyDataModel env _ (world st)) as [[newData | e1] w1] eqn:Happly;
      observe; split.
    + intros patchDb H. among H. subst. auto.
    + intros r H. single H r. intros _. eauto.
    + intros patchDb H. among H. subst. auto.
    + intros r H. single H r. discriminate.
Qed.

(** ** Download and info *)

(** A [fileName] that is falsy (the empty string, [null], [false], 0) is
    treated like no [fileName] at all: the run is the one of the request
    without that key, which serves the loaded project. *)
Theorem download_falsy_name_as_absent {W} (env : Env W) (req : Request)
    (st : HState W) :
  truthy (field (body req) "fileName") = false ->
  projectDownload env req st
    = projectDownload env (withBody (delete "fileName" (body req)) req) st.
Proof.
  intros Hfalsy. unfold projectDownload, selectProjectFile.
  cbn [body withBody].
  assert (Habsent : field (delete "fileName" (body req)) "fileName" = JUndefined).
  { unfold field. now rewrite lookup_delete_eq. }
  rewrite Habsent, Hfalsy. reflexivity.
Qed.

Lemma download_falsy_name_as_absent_witness :
  projectDownload demoEnv (requestFor "" [("fileName", JStr "")]) showState
    = projectDownload demoEnv
        (withBody
           (delete "fileName" (body (requestFor "" [("fileName", JStr "")])))
           (requestFor "" [("fileName", JStr "")]))
        showState.
Proof.
  apply (download_falsy_name_as_absent demoEnv
           (requestFor "" [("fileName", JStr "")]) showState).
  vm_compute. reflexivity.
Defined.

Lemma patch_answer_reflects_effect_witness :
  exists newData,
    ModelBody
      (mkDatabaseModel (JArr []) (projectJson (mkProjectData (JStr "Show A.json")
         (JStr "") (JStr "") (JStr "") (JStr "") (JStr ""))) (JObj [("a", JNum 1)])
         (JObj []) (JArr []) (JObj []) (JObj []) (JObj []))
      = ModelBody newData
    /\ applyDataModel demoEnv
         (patchOf (body (requestFor "" [("settings", JObj [("a", JNum 1)])])))
         showWorld
       = (Ok newData,
          world (snd (patchPartialProjectFile demoEnv
                        (requestFor "" [("settings", JObj [("a", JNum 1)])])
                        showState))).
Proof.
  destruct (patch_answer_reflects_effect demoEnv
              (requestFor "" [("settings", JObj [("a", JNum 1)])]) showState)
    as [_ Hanswer].
  apply (Hanswer
           (mkResponse 200
              (ModelBody
                 (mkDatabaseModel (JArr [])
                    (projectJson (mkProjectData (JStr "Show A.json")
                       (JStr "") (JStr "") (JStr "") (JStr "") (JStr "")))
                    (JObj [("a", JNum 1)])
                    (JObj []) (JArr []) (JObj []) (JObj []) (JObj []))))).
  - vm_compute. apply list_elem_of_here.
  - reflexivity.
Defined.

(** A file is served only after it was found: when a run of the download
    handler reaches [res.download], the path is [join resolveDbDirectory
    name] for the name served, and [existsSync] answered true for it. *)
Theorem download_serves_only_existing {W} (env : Env W) (req : Request)
    (st : HState W) (path name : string) :
  Call (CDownload path name) ∈ newEvents st (snd (projectDownload env req st)) ->
  path = join env (resolveDbDirectory env) name
  /\ existsSync env path (world st) = true
  /\ downloadName env req (world st) = Ok name.
Proof.
  unfold projectDownload, selectProjectFile, downloadName, bind, ask, call,
    send, ret, getErrorMessage.
  destruct (truthy (field (body req) "fileName")).
  - destruct (ensureJsonExtension env _) as [found | e]; observe;
      [| intros H; among H].
    destruct (existsSync env _ (world st)) eqn:Hexists; observe;
      [| intros H; among H].
    destruct (download env _ _ (world st)); observe;
      intros H; among H; subst; auto.
  - destruct (getProjectTitle env (world st)) as [found | e]; observe;
      [| intros H; among H].
    destruct (existsSync env _ (world st)) eqn:Hexists; observe;
      [| intros H; among H].
    destruct (download env _ _ (world st)); observe;
      intros H; among H; subst; auto.
Qed.

Lemma download_serves_only_existing_witness :
  "/ontime/db/Show A.json" = join demoEnv (resolveDbDirectory demoEnv) "Show A.json"
  /\ existsSync demoEnv "/ontime/db/Show A.json" showWorld = true
  /\ downloadName demoEnv (requestFor "" [("fileName", JStr "Show A")]) showWorld
     = Ok "Show A.json".
Proof.
  apply (download_serves_only_existing demoEnv
           (requestFor "" [("fileName", JStr "Show A")]) showState
           "/ontime/db/Show A.json" "Show A.json").
  vm_compute. do 2 apply list_elem_of_further. apply list_elem_of_here.
Defined.

(** ** Status codes *)

Ltac cases :=
  repeat (cbv beta iota; cbn [world log sent];
          match goal with
          | |- context [match ?x with _ => _ end] =>
              lazymatch x with
              | context [match _ with _ => _ end] => fail
              | _ => destruct x
              end
          end).

Ltac one_of :=
  first [ apply list_elem_of_here | apply list_elem_of_further; one_of ].

Ltac status_of_run :=
  let r := fresh "r" in
  let H := fresh "H" in
  intros r;
  unfold tryCatch, bind, ask, call, send, ret, getErrorMessage;
  cases; observe; intros H;
  first [ apply elem_of_nil in H; destruct H | single H r; one_of ].

(** The statuses the four documented handlers send are the ones their
    documentation lists: create answers 200, 409 or 500; duplicate and
    rename 201, 409 or 500; delete 204, 403, 409 or 500. *)
Theorem documented_status_codes {W} (env : Env W) (req : Request) (st : HState W) :
  (forall r, r ∈ newResponses st (snd (createProjectFile env req st)) ->
             status r ∈ [200; 409; 500])
  /\ (forall r, r ∈ newResponses st (snd (duplicateProjectFile env req st)) ->
                status r ∈ [201; 409; 500])
  /\ (forall r, r ∈ newResponses st (snd (renameProjectFile env req st)) ->
                status r ∈ [201; 409; 500])
  /\ (forall r, r ∈ newResponses st (snd (deleteProjectFile env req st)) ->
                status r ∈ [204; 403; 409; 500]).
Proof.
  repeat apply conj.
  - unfold createProjectFile. status_of_run.
  - unfold duplicateProjectFile. status_of_run.
  - unfold renameProjectFile. status_of_run.
  - unfold deleteProjectFile. status_of_run.
Qed.

(** The statuses the other handlers set: patch answers 200 or 400, upload
    201 or 400, list 200 or 500, load 201, 404 or 500, and info 200; an
    answer of the download handler that carries a [{message}] has status 404
    or 500 (the handler sets no status for the file it serves). *)
Theorem other_status_codes {W} (env : Env W) (req : Request) (st : HState W) :
  (forall r, r ∈ newResponses st (snd (patchPartialProjectFile env req st)) ->
             status r ∈ [200; 400])
  /\ (forall r, r ∈ newResponses st (snd (postProjectFile env req st)) ->
                status r ∈ [201; 400])
  /\ (forall r, r ∈ newResponses st (snd (listProjects env req st)) ->
                status r ∈ [200; 500])
  /\ (forall r, r ∈ newResponses st (snd (loadProject env req st)) ->
                status r ∈ [201; 404; 500])
  /\ (forall r, r ∈ newResponses st (snd (getInfo env req st)) ->
                status r ∈ [200])
  /\ (forall r message,
        r ∈ newResponses st (snd (projectDownload env req st)) ->
        payload r = Message message ->
        status r ∈ [404; 500]).
Proof.
  repeat apply conj.
  - unfold patchPartialProjectFile. status_of_run.
  - unfold postProjectFile. status_of_run.
  - unfold listProjects. status_of_run.
  - unfold loadProject. status_of_run.
  - unfold getInfo. status_of_run.
  - intros r message. unfold projectDownload, selectProjectFile.
    unfold tryCatch, bind, ask, call, send, ret, getErrorMessage.
    cases; observe; intros H;
      first [ apply elem_of_nil in H; destruct H
            | single H r; intros Hmessage;
              first [ discriminate Hmessage | one_of ] ].
Qed.

Lemma documented_status_codes_witness :
  403 ∈ [204; 403; 409; 500] /\ 409 ∈ [201; 409; 500].
Proof.
  destruct (documented_status_codes demoEnv
              (requestFor "Show A.json" [("newFilename", JStr "Show B.json")])
              showState) as (_ & _ & Hrename & Hdelete).
  split.
  - apply (Hdelete
             (mkResponse 403 (Message "Cannot delete currently loaded project"))).
    vm_compute. apply list_elem_of_here.
  - apply (Hrename (mkResponse 409 (Message "New project file already exists"))).
    vm_compute. apply list_elem_of_here.
Defined.

Lemma other_status_codes_witness :
  404 ∈ [201; 404; 500] /\ 400 ∈ [200; 400].
Proof.
  destruct (other_status_codes demoEnv (requestFor "" []) showState)
    as (Hpatch & _ & _ & Hload & _ & _).
  split.
  - apply (Hload (mkResponse 404 (Message "File not found"))).
    vm_compute. apply list_elem_of_here.
  - apply (Hpatch (mkResponse 400 (Message "No field found to patch"))).
    vm_compute. apply list_elem_of_here.
Defined.
